(** * Resource management app: workload store and assignment policy

    A shallow embedding of [src/app.py]: the two SQLite tables
    ([employees], [tasks]), the methods of [DatabaseManager] that read and
    write them, [TaskScheduler.find_best_employee], and the button handlers
    of the pages.

    Modelling choices, all local to this file:
    - a table is the list of its rows in insertion order; a PRIMARY KEY is
      the uniqueness check the INSERT performs, and it raises
      [IntegrityError] exactly as [sqlite3] does;
    - the connection never issues [PRAGMA foreign_keys = ON], so SQLite does
      not enforce the FOREIGN KEY clause of [tasks]: an INSERT never looks at
      the [employees] table;
    - TEXT values are byte strings; Python compares [str] by code point,
      which for UTF-8 bytes is the byte-wise lexicographic order of
      [String.compare];
    - CURRENT_TIMESTAMP is an input [now] of the operation that inserts a
      row.

    The store is modelled at two levels.
    - In the first, a REAL column holds a rational number ([Q]), arithmetic
      is exact, and a method is looked at one call at a time, on a database
      no earlier call has left a connection open on.  What is proved here
      compares and copies the stored numbers; it does not depend on how a
      sum rounds.
    - In the second ([Connected], [Doubles]), a REAL column holds an IEEE
      754 double as SQLite keeps it, [duration] is NOT NULL, and a call that
      fails leaves its connection open with the write lock until the
      collector runs.  What depends on rounding, on NaN or on the calls
      made before is proved here. *)

From Stdlib Require Import List String Ascii Bool Arith NArith QArith Lia.
From Stdlib Require Import Permutation Sorted Mergesort Orders RelationClasses.
From Stdlib Require Decimal DecimalNat DecimalString.
From Stdlib Require Floats.
Import ListNotations.

Local Open Scope list_scope.

(** ** Exceptions *)

Inductive exn : Type :=
| IntegrityError   (* sqlite3.IntegrityError: a constraint failed *)
| IndexError.      (* list index out of range *)

Inductive outcome (A : Type) : Type :=
| Returned (a : A)
| Raised (e : exn).

Arguments Returned {A} a.
Arguments Raised {A} e.

Definition bind {A B : Type} (m : outcome A) (k : A -> outcome B) : outcome B :=
  match m with
  | Returned a => k a
  | Raised e => Raised e
  end.

Notation "x <- m ;; k" := (bind m (fun x => k))
  (at level 61, m at next level, right associativity).

(** ** The schema of [init_database] *)

Record EmployeeRow : Type := mkEmployeeRow {
  e_emp_id : string;            (* TEXT PRIMARY KEY *)
  e_current_workload : Q;       (* REAL DEFAULT 0 *)
  e_next_free_time : Q;         (* REAL DEFAULT 0 *)
  e_created_at : nat            (* TIMESTAMP DEFAULT CURRENT_TIMESTAMP *)
}.

Record TaskRow : Type := mkTaskRow {
  t_task_id : string;           (* TEXT PRIMARY KEY *)
  t_description : string;       (* TEXT NOT NULL *)
  t_duration : Q;               (* REAL NOT NULL *)
  t_assigned_to : string;       (* TEXT, FOREIGN KEY declared, not enforced *)
  t_created_at : nat            (* TIMESTAMP DEFAULT CURRENT_TIMESTAMP *)
}.

Record Database : Type := mkDatabase {
  employees : list EmployeeRow;
  tasks : list TaskRow
}.

(** The database right after [init_database] on a fresh file. *)
Definition init_database : Database :=
  {| employees := []; tasks := [] |}.

(** ** Orders used by the two [ORDER BY] / [list.sort] calls *)

(** Python's order on the tuples [(float, str)]: the first components
    decide unless they are equal, then the second ones do. *)
Module PairOrder <: TotalLeBool.

Definition t : Type := (Q * string)%type.

Definition leb (x y : t) : bool :=
  match Qcompare (fst x) (fst y) with
  | Lt => true
  | Eq => String.leb (snd x) (snd y)
  | Gt => false
  end.

Lemma pair_leb_total : forall x y, leb x y = true \/ leb y x = true.
Proof.
  intros [w1 i1] [w2 i2]. unfold leb. simpl.
  rewrite <- (Qcompare_antisym w1 w2).
  destruct (Qcompare w1 w2); simpl; auto.
  apply String.leb_total.
Qed.

Definition leb_total := pair_leb_total.

End PairOrder.

Module PairSort := Sort PairOrder.

(** [ORDER BY created_at DESC] on task rows. *)
Module CreatedDescOrder <: TotalLeBool.

Definition t : Type := TaskRow.

Definition leb (x y : t) : bool := (t_created_at y <=? t_created_at x)%nat.

Lemma created_desc_leb_total : forall x y, leb x y = true \/ leb y x = true.
Proof.
  intros x y. unfold leb.
  destruct (Nat.le_ge_cases (t_created_at x) (t_created_at y)) as [H | H];
    apply Nat.leb_le in H; auto.
Qed.

Definition leb_total := created_desc_leb_total.

End CreatedDescOrder.

Module CreatedDescSort := Sort CreatedDescOrder.

(** ** The SQL statements the methods execute

    A statement takes the database and returns the new one, or raises.
    Only an INSERT can raise here (PRIMARY KEY); a DELETE or an UPDATE
    whose WHERE clause matches no row is not an error in SQL. *)

Definition has_employee (i : string) (db : Database) : bool :=
  existsb (fun r => String.eqb (e_emp_id r) i) (employees db).

Definition has_task (i : string) (db : Database) : bool :=
  existsb (fun r => String.eqb (t_task_id r) i) (tasks db).

(** [INSERT INTO employees (emp_id) VALUES (?)]: the other columns take
    their defaults. *)
Definition insert_employee (now : nat) (i : string) (db : Database)
  : outcome Database :=
  if has_employee i db then Raised IntegrityError
  else Returned
         {| employees := employees db ++ [mkEmployeeRow i 0 0 now];
            tasks := tasks db |}.

(** [INSERT INTO tasks (task_id, description, duration, assigned_to)
    VALUES (?, ?, ?, ?)] *)
Definition insert_task (now : nat) (i d : string) (dur : Q) (a : string)
    (db : Database) : outcome Database :=
  if has_task i db then Raised IntegrityError
  else Returned
         {| employees := employees db;
            tasks := tasks db ++ [mkTaskRow i d dur a now] |}.

(** [DELETE FROM tasks WHERE assigned_to = ?] *)
Definition delete_tasks_of (i : string) (db : Database) : outcome Database :=
  Returned
    {| employees := employees db;
       tasks :=
         filter (fun r => negb (String.eqb (t_assigned_to r) i)) (tasks db) |}.

(** [DELETE FROM employees WHERE emp_id = ?] *)
Definition delete_employee (i : string) (db : Database) : outcome Database :=
  Returned
    {| employees :=
         filter (fun r => negb (String.eqb (e_emp_id r) i)) (employees db);
       tasks := tasks db |}.

(** [UPDATE employees SET current_workload = current_workload + ?,
    next_free_time = current_workload + ? WHERE emp_id = ?]: both
    right-hand sides read the row as it was before the UPDATE. *)
Definition update_workload (dur1 dur2 : Q) (a : string) (db : Database)
  : outcome Database :=
  Returned
    {| employees :=
         map (fun r =>
                if String.eqb (e_emp_id r) a
                then {| e_emp_id := e_emp_id r;
                        e_current_workload := e_current_workload r + dur1;
                        e_next_free_time := e_current_workload r + dur2;
                        e_created_at := e_created_at r |}
                else r)
             (employees db);
       tasks := tasks db |}.

(** [DELETE FROM tasks] *)
Definition delete_all_tasks (db : Database) : outcome Database :=
  Returned {| employees := employees db; tasks := [] |}.

(** [DELETE FROM employees] *)
Definition delete_all_employees (db : Database) : outcome Database :=
  Returned {| employees := []; tasks := tasks db |}.

(** ** class DatabaseManager

    A method that raises has not reached its [commit]: its caller goes on
    with the database as it was before the call. *)

Module DatabaseManager.

(** The dictionaries built by [get_all_employees]. *)
Record emp : Type := mkEmp {
  emp_id : string;
  current_workload : Q;
  next_free_time : Q;
  available_hours : Q;
  is_available : bool
}.

(** The dictionaries built by [get_all_tasks]. *)
Record task : Type := mkTask {
  task_id : string;
  description : string;
  duration : Q;
  assigned_to : string;
  created_at : nat
}.

(** Python's [x < y] on numbers. *)
Definition Qltb (x y : Q) : bool := negb (Qle_bool y x).

(** Python's [max(a, b)]: [b] when [b > a], else [a]. *)
Definition py_max (a b : Q) : Q := if Qltb a b then b else a.

(** [add_employee]: the INSERT, with [sqlite3.IntegrityError] caught and
    turned into [False]. *)
Definition add_employee (now : nat) (emp_id : string) (db : Database)
  : outcome (bool * Database) :=
  match insert_employee now emp_id db with
  | Returned db' => Returned (true, db')
  | Raised IntegrityError => Returned (false, db)
  | Raised e => Raised e
  end.

(** [remove_employee]: the tasks go first, then the employee. *)
Definition remove_employee (emp_id : string) (db : Database)
  : outcome Database :=
  db1 <- delete_tasks_of emp_id db ;;
  delete_employee emp_id db1.

Definition get_all_employees (db : Database) : list emp :=
  map (fun row =>
         {| emp_id := e_emp_id row;
            current_workload := e_current_workload row;
            next_free_time := e_next_free_time row;
            available_hours := py_max 0 (9 - e_current_workload row);
            is_available := Qltb (e_current_workload row) 9 |})
      (employees db).

(** [add_task]: the INSERT, then the UPDATE.  An exception of the INSERT
    leaves the method before the UPDATE. *)
Definition add_task (now : nat) (task_id description : string) (duration : Q)
    (assigned_to : string) (db : Database) : outcome Database :=
  db1 <- insert_task now task_id description duration assigned_to db ;;
  update_workload duration duration assigned_to db1.

Definition get_all_tasks (db : Database) : list task :=
  map (fun row =>
         {| task_id := t_task_id row;
            description := t_description row;
            duration := t_duration row;
            assigned_to := t_assigned_to row;
            created_at := t_created_at row |})
      (CreatedDescSort.sort (tasks db)).

Definition reset_all_data (db : Database) : outcome Database :=
  db1 <- delete_all_tasks db ;;
  delete_all_employees db1.

End DatabaseManager.

(** ** class TaskScheduler *)

Module TaskScheduler.

Import DatabaseManager.

(** [l[0][1]] on a list of pairs. *)
Definition first_id (l : list (Q * string)) : outcome (option string) :=
  match l with
  | p :: _ => Returned (Some (snd p))
  | [] => Raised IndexError
  end.

(** The two candidate lists of [find_best_employee]. *)
Definition available_employees (employees : list emp) (task_duration : Q)
  : list (Q * string) :=
  map (fun e => (current_workload e, emp_id e))
      (filter (fun e => Qle_bool task_duration (available_hours e)) employees).

Definition next_free_times (employees : list emp) : list (Q * string) :=
  map (fun e => (next_free_time e, emp_id e)) employees.

Definition find_best_employee (db : Database) (task_duration : Q)
  : outcome (option string) :=
  let employees := get_all_employees db in
  match employees with
  | [] => Returned None
  | _ :: _ =>
      match available_employees employees task_duration with
      | _ :: _ =>
          first_id (PairSort.sort (available_employees employees task_duration))
      | [] => first_id (PairSort.sort (next_free_times employees))
      end
  end.

End TaskScheduler.

(** ** Sequences of calls on the shared [db_manager] *)

Inductive op : Type :=
| AddEmployee (now : nat) (emp_id : string)
| AddTask (now : nat) (task_id description : string) (duration : Q)
    (assigned_to : string)
| RemoveEmployee (emp_id : string)
| ResetAll.

Definition committed {A : Type} (db : Database) (r : outcome A)
    (get : A -> Database) : Database :=
  match r with
  | Returned a => get a
  | Raised _ => db
  end.

(** One call; a call that raises leaves the database as it was. *)
Definition apply_op (o : op) (db : Database) : Database :=
  match o with
  | AddEmployee now i =>
      committed db (DatabaseManager.add_employee now i db) snd
  | AddTask now i d dur a =>
      committed db (DatabaseManager.add_task now i d dur a db) (fun x => x)
  | RemoveEmployee i =>
      committed db (DatabaseManager.remove_employee i db) (fun x => x)
  | ResetAll =>
      committed db (DatabaseManager.reset_all_data db) (fun x => x)
  end.

Definition run (ops : list op) (db : Database) : Database :=
  fold_left (fun s o => apply_op o s) ops db.

(** Every task creation of the sequence names an employee that exists when
    the call is made. *)
Definition op_refs_ok (o : op) (db : Database) : bool :=
  match o with
  | AddTask _ _ _ _ a => has_employee a db
  | _ => true
  end.

Fixpoint refs_ok (ops : list op) (db : Database) : bool :=
  match ops with
  | [] => true
  | o :: rest => op_refs_ok o db && refs_ok rest (apply_op o db)
  end.

(** ** Vocabulary of the properties *)

(** The sum of [duration] over the tasks assigned to [i]. *)
Definition assigned_hours (i : string) (ts : list TaskRow) : Q :=
  fold_right Qplus 0
    (map t_duration (filter (fun r => String.eqb (t_assigned_to r) i) ts)).

(** The lexicographic order on [(number, id)] keys, as a proposition. *)
Definition key_le (x y : Q * string) : Prop :=
  fst x < fst y \/ (fst x == fst y /\ String.leb (snd x) (snd y) = true).

(** No two employee rows, and no two task rows, share a primary key. *)
Definition keys_unique (db : Database) : Prop :=
  NoDup (map e_emp_id (employees db)) /\ NoDup (map t_task_id (tasks db)).

(** Every task row names an employee row. *)
Definition references_exist (db : Database) : Prop :=
  forall r, In r (tasks db) -> has_employee (t_assigned_to r) db = true.

(** Every employee row carries the hours of the tasks assigned to it. *)
Definition workload_matches (db : Database) : Prop :=
  forall r, In r (employees db) ->
            e_current_workload r == assigned_hours (e_emp_id r) (tasks db).

(** The number of employee rows whose key is [i]. *)
Definition count_employee (i : string) (db : Database) : nat :=
  List.length (filter (fun r => String.eqb (e_emp_id r) i) (employees db)).

(** ** The two scenarios of the policy *)

(** The store of the phase-1 scenario: A carries 2 hours, B carries 5. *)
Definition phase1_example : Database :=
  run [AddEmployee 0 "A"; AddEmployee 0 "B";
       AddTask 1 "TASK_001" "two hours" 2 "A";
       AddTask 2 "TASK_002" "five hours" 5 "B"] init_database.

(** The store of the phase-2 scenario: A and B both carry 9 hours. *)
Definition phase2_example : Database :=
  run [AddEmployee 0 "A"; AddEmployee 0 "B";
       AddTask 1 "TASK_001" "a full day" 9 "A";
       AddTask 2 "TASK_002" "a full day" 9 "B"] init_database.

(** The employees of the phase-1 scenario next to an empty [tasks] table. *)
Definition phase1_no_tasks : Database :=
  {| employees := employees phase1_example; tasks := [] |}.

(** ** A sequence of calls with failures in it

    A is added twice, two task ids are reused, B is removed and created
    again. *)
Definition bookkeeping_example : list op :=
  [AddEmployee 0 "A"; AddEmployee 0 "B"; AddEmployee 1 "A";
   AddTask 1 "TASK_001" "first" 2 "A";
   AddTask 2 "TASK_002" "second" (5 # 2) "B";
   AddTask 3 "TASK_002" "same id again" 4 "A";
   AddTask 4 "TASK_003" "third" 3 "A";
   RemoveEmployee "B"; AddEmployee 5 "B";
   AddTask 6 "TASK_003" "same id again" 1 "B";
   AddTask 7 "TASK_002" "fourth" 1 "B"].

(** ** Preparing a SELECT: which table a column name means

    SQLite resolves every column name of a statement against the tables of
    its FROM clause when the statement is prepared, before any row is
    read.  A bare name found in no table, or in more than one, makes
    [cursor.execute] raise [sqlite3.OperationalError]. *)

Definition employees_columns : list string :=
  ["emp_id"; "current_workload"; "next_free_time"; "created_at"]%string.

Definition tasks_columns : list string :=
  ["task_id"; "description"; "duration"; "assigned_to"; "created_at"]%string.

Inductive column_ref : Type :=
| Bare (name : string)                 (* created_at *)
| Dotted (alias name : string).        (* t.created_at *)

Inductive prepared (A : Type) : Type :=
| Prepared (a : A)
| OperationalError (msg : string).

Arguments Prepared {A} a.
Arguments OperationalError {A} msg.

(** The tables of [from], each with its alias, that have a column [name]. *)
Definition tables_with (name : string) (from : list (string * list string))
  : list (string * list string) :=
  filter (fun t => existsb (String.eqb name) (snd t)) from.

(** The alias of the table a column reference means. *)
Definition resolve (from : list (string * list string)) (c : column_ref)
  : prepared string :=
  match c with
  | Bare name =>
      match tables_with name from with
      | [] => OperationalError (String.append "no such column: " name)
      | [t] => Prepared (fst t)
      | _ :: _ :: _ =>
          OperationalError (String.append "ambiguous column name: " name)
      end
  | Dotted alias name =>
      match filter (fun t => String.eqb (fst t) alias) (tables_with name from)
      with
      | [] =>
          OperationalError
            (String.append "no such column: "
               (String.append alias (String.append "." name)))
      | t :: _ => Prepared (fst t)
      end
  end.

(** All the column references of a statement, in order; the first one that
    does not resolve is the error of the statement. *)
Fixpoint prepare (from : list (string * list string)) (cs : list column_ref)
  : prepared (list string) :=
  match cs with
  | [] => Prepared []
  | c :: rest =>
      match resolve from c with
      | OperationalError msg => OperationalError msg
      | Prepared a =>
          match prepare from rest with
          | OperationalError msg => OperationalError msg
          | Prepared l => Prepared (a :: l)
          end
      end
  end.

(** [FROM employees] *)
Definition from_employees : list (string * list string) :=
  [("employees"%string, employees_columns)].

(** [FROM tasks] *)
Definition from_tasks : list (string * list string) :=
  [("tasks"%string, tasks_columns)].

(** [FROM employees e LEFT JOIN tasks t] *)
Definition from_employees_join_tasks : list (string * list string) :=
  [("e"%string, employees_columns); ("t"%string, tasks_columns)].

(** The column references of the SELECT of [get_all_employees]. *)
Definition get_all_employees_columns : list column_ref :=
  [Bare "emp_id"; Bare "current_workload"; Bare "next_free_time"].

(** The column references of the SELECT of [get_all_tasks]: the result
    columns, then ORDER BY. *)
Definition get_all_tasks_columns : list column_ref :=
  [Bare "task_id"; Bare "description"; Bare "duration"; Bare "assigned_to";
   Bare "created_at"; Bare "created_at"].

(** The column references of the SELECT of [get_task_assignments]: the
    result columns, then ON, then ORDER BY. *)
Definition get_task_assignments_columns : list column_ref :=
  [Bare "emp_id"; Bare "task_id"; Bare "description"; Bare "duration";
   Bare "created_at";
   Dotted "e" "emp_id"; Dotted "t" "assigned_to";
   Dotted "e" "emp_id"; Dotted "t" "created_at"].

(** ** [DatabaseManager.get_task_assignments] *)

(** A row of [employees e LEFT JOIN tasks t]: the task columns are NULL
    for an employee without tasks. *)
Record JoinedRow : Type := mkJoinedRow {
  j_employee : EmployeeRow;
  j_task : option TaskRow
}.

Definition left_join (db : Database) : list JoinedRow :=
  flat_map
    (fun e =>
       match filter (fun t => String.eqb (e_emp_id e) (t_assigned_to t))
                    (tasks db)
       with
       | [] => [mkJoinedRow e None]
       | ts => map (fun t => mkJoinedRow e (Some t)) ts
       end)
    (employees db).

(** [ORDER BY e.emp_id, t.created_at]; NULL sorts before every value. *)
Module JoinedOrder <: TotalLeBool.

Definition t : Type := JoinedRow.

Definition null_first_leb (x y : option nat) : bool :=
  match x, y with
  | None, _ => true
  | Some _, None => false
  | Some a, Some b => (a <=? b)%nat
  end.

Definition leb (x y : t) : bool :=
  match String.compare (e_emp_id (j_employee x)) (e_emp_id (j_employee y)) with
  | Lt => true
  | Eq => null_first_leb (option_map t_created_at (j_task x))
                         (option_map t_created_at (j_task y))
  | Gt => false
  end.

Lemma joined_leb_total : forall x y, leb x y = true \/ leb y x = true.
Proof.
  intros x y. unfold leb.
  rewrite (String.compare_antisym (e_emp_id (j_employee y))).
  destruct (String.compare (e_emp_id (j_employee x)) (e_emp_id (j_employee y)));
    simpl; auto.
  destruct (option_map t_created_at (j_task x)) as [a |],
           (option_map t_created_at (j_task y)) as [b |]; simpl; auto.
  destruct (Nat.le_ge_cases a b) as [H | H]; apply Nat.leb_le in H; auto.
Qed.

Definition leb_total := joined_leb_total.

End JoinedOrder.

Module JoinedSort := Sort JoinedOrder.

(** The dictionaries appended by [get_task_assignments]. *)
Record assigned_task : Type := mkAssignedTask {
  at_task_id : string;
  at_description : string;
  at_duration : Q;
  at_created_at : nat
}.

(** Python's truth value of a [str]. *)
Definition truthy (s : string) : bool := negb (String.eqb s "").

(** A [dict] from employee id to list, in insertion order. *)
Definition assignments : Type := list (string * list assigned_task).

Definition dict_mem (k : string) (d : assignments) : bool :=
  existsb (fun kv => String.eqb (fst kv) k) d.

(** [d[k].append(x)] *)
Definition dict_append (k : string) (x : assigned_task) (d : assignments)
  : assignments :=
  map (fun kv => if String.eqb (fst kv) k then (fst kv, snd kv ++ [x]) else kv)
      d.

(** The body of the [for row in cursor.fetchall()] loop. *)
Definition collect_row (d : assignments) (row : JoinedRow) : assignments :=
  let emp_id := e_emp_id (j_employee row) in
  let d1 := if dict_mem emp_id d then d else d ++ [(emp_id, [])] in
  match j_task row with
  | Some t =>
      if truthy (t_task_id t)
      then dict_append emp_id
             (mkAssignedTask (t_task_id t) (t_description t) (t_duration t)
                (t_created_at t))
             d1
      else d1
  | None => d1
  end.

Definition get_task_assignments (db : Database) : prepared assignments :=
  match prepare from_employees_join_tasks get_task_assignments_columns with
  | OperationalError msg => OperationalError msg
  | Prepared _ =>
      Prepared (fold_left collect_row (JoinedSort.sort (left_join db)) [])
  end.

(** ** Connections that are never closed

    Every method opens its own connection and closes it after [commit].
    A method that leaves early, on the exception of a statement (also the
    one [add_employee] catches), never reaches [conn.close()]: its
    connection stays open, with the write transaction the failed statement
    had begun, until Python's cyclic collector frees it.  Until then
    SQLite refuses every other write with [sqlite3.OperationalError:
    database is locked]; reads are not refused.  A refused call has written
    nothing and holds no lock of its own. *)

Inductive raised : Type :=
| Python (e : exn)         (* the exception of a statement *)
| DatabaseIsLocked.        (* sqlite3.OperationalError: database is locked *)

Inductive reply (A : Type) : Type :=
| Replied (a : A)
| Threw (e : raised).

Arguments Replied {A} a.
Arguments Threw {A} e.

(** What is committed on disk, and whether a connection left open holds
    the write lock. *)
Record Connected (D : Type) : Type := mkConnected {
  on_disk : D;
  write_lock : bool
}.

Arguments mkConnected {D} on_disk write_lock.
Arguments on_disk {D} c.
Arguments write_lock {D} c.

(** The statements of a method between [get_connection] and [commit]. *)
Definition write {D : Type} (statements : D -> outcome D) (s : Connected D)
  : reply unit * Connected D :=
  if write_lock s then (Threw DatabaseIsLocked, s)
  else
    match statements (on_disk s) with
    | Returned d' => (Replied tt, {| on_disk := d'; write_lock := false |})
    | Raised e => (Threw (Python e), {| on_disk := on_disk s; write_lock := true |})
    end.

(** [try: ...; return True / except sqlite3.IntegrityError: return False] *)
Definition except_integrity_error {D : Type} (r : reply unit * Connected D)
  : reply bool * Connected D :=
  match r with
  | (Replied _, s') => (Replied true, s')
  | (Threw (Python IntegrityError), s') => (Replied false, s')
  | (Threw e, s') => (Threw e, s')
  end.

(** The collector frees the connections left open. *)
Definition collect {D : Type} (s : Connected D) : Connected D :=
  {| on_disk := on_disk s; write_lock := false |}.

(** ** The button handlers of the pages

    A handler is the block under [if st.button(...)]: it takes what the
    widgets hold and the store, and shows one message or lets an exception
    through.  [st.rerun()] only redraws the page. *)

Inductive notice : Type :=
| st_success (msg : string)
| st_error (msg : string)
| st_info (msg : string).

(** The three methods the handlers call to write, on what is committed
    and the lock. *)
Definition add_employee_call (now : nat) (emp_id : string)
    (s : Connected Database) : reply bool * Connected Database :=
  except_integrity_error (write (insert_employee now emp_id) s).

Definition remove_employee_call (emp_id : string) (s : Connected Database)
  : reply unit * Connected Database :=
  write (DatabaseManager.remove_employee emp_id) s.

Definition add_task_call (now : nat) (task_id description : string)
    (duration : Q) (assigned_to : string) (s : Connected Database)
  : reply unit * Connected Database :=
  write (DatabaseManager.add_task now task_id description duration assigned_to)
        s.

(** [employee_management], "Add Employee". *)
Definition add_employee_button (now : nat) (emp_id : string)
    (s : Connected Database) : reply notice * Connected Database :=
  if truthy emp_id then
    match add_employee_call now emp_id s with
    | (Replied true, s') =>
        (Replied
           (st_success
              (String.append "Employee "
                 (String.append emp_id " added successfully!"))),
         s')
    | (Replied false, s') =>
        (Replied (st_error "Employee ID already exists!"), s')
    | (Threw e, s') => (Threw e, s')
    end
  else (Replied (st_error "Please enter a valid Employee ID!"), s).

(** [employee_management], "Remove Employee": the button is drawn only
    when there are employees; [emp_to_remove] is what the select box
    holds. *)
Definition remove_employee_button (emp_to_remove : string)
    (s : Connected Database) : reply notice * Connected Database :=
  match DatabaseManager.get_all_employees (on_disk s) with
  | [] =>
      (Replied
         (st_info "No employees added yet. Add some employees to get started!"),
       s)
  | _ :: _ =>
      match remove_employee_call emp_to_remove s with
      | (Replied _, s') =>
          (Replied
             (st_success
                (String.append "Employee "
                   (String.append emp_to_remove " removed!"))),
           s')
      | (Threw e, s') => (Threw e, s')
      end
  end.

(** A run of [k] characters "0". *)
Fixpoint zeros (k : nat) : string :=
  match k with
  | O => EmptyString
  | S k' => String "0" (zeros k')
  end.

(** The format [{n:03d}]: decimal digits, filled with "0" on the left up
    to three characters. *)
Definition format_03d (n : nat) : string :=
  let digits := DecimalString.NilEmpty.string_of_uint (Nat.to_uint n) in
  String.append (zeros (3 - String.length digits)) digits.

(** [f"TASK_{len(existing_tasks) + 1:03d}"] *)
Definition next_task_id (db : Database) : string :=
  let existing_tasks := DatabaseManager.get_all_tasks db in
  String.append "TASK_" (format_03d (List.length existing_tasks + 1)).

(** [task_management], "Add Task". *)
Definition add_task_button (now : nat) (task_desc : string)
    (task_duration : Q) (s : Connected Database)
  : reply notice * Connected Database :=
  if truthy task_desc && DatabaseManager.Qltb 0 task_duration then
    match DatabaseManager.get_all_employees (on_disk s) with
    | [] => (Replied (st_error "Please add employees first!"), s)
    | _ :: _ =>
        match TaskScheduler.find_best_employee (on_disk s) task_duration with
        | Raised e => (Threw (Python e), s)
        | Returned None => (Replied (st_error "No employees available!"), s)
        | Returned (Some e) =>
            if truthy e then
              let task_id := next_task_id (on_disk s) in
              match add_task_call now task_id task_desc task_duration e s with
              | (Replied _, s') =>
                  (Replied
                     (st_success
                        (String.append "Task "
                           (String.append task_id
                              (String.append " assigned to "
                                 (String.append e "!"))))),
                   s')
              | (Threw x, s') => (Threw x, s')
              end
            else (Replied (st_error "No employees available!"), s)
        end
    end
  else (Replied (st_error "Please fill in all fields!"), s).

(** What happens in a session: the user clicks, and now and then the
    collector runs. *)
Inductive event : Type :=
| ClickAddEmployee (now : nat) (emp_id : string)
| ClickRemoveEmployee (emp_to_remove : string)
| ClickAddTask (now : nat) (task_desc : string) (task_duration : Q)
| CollectorRuns.

Definition after_event (e : event) (s : Connected Database)
  : Connected Database :=
  match e with
  | ClickAddEmployee now emp_id => snd (add_employee_button now emp_id s)
  | ClickRemoveEmployee emp_to_remove =>
      snd (remove_employee_button emp_to_remove s)
  | ClickAddTask now task_desc task_duration =>
      snd (add_task_button now task_desc task_duration s)
  | CollectorRuns => collect s
  end.

Definition session (es : list event) (s : Connected Database)
  : Connected Database :=
  fold_left (fun x e => after_event e x) es s.

Definition is_removal (e : event) : bool :=
  match e with
  | ClickRemoveEmployee _ => true
  | _ => false
  end.

(** The store when the application starts. *)
Definition empty_store : Connected Database :=
  {| on_disk := init_database; write_lock := false |}.

(** A session that ends with one task left, whose id is TASK_002. *)
Definition collision_session : list event :=
  [ClickAddEmployee 0 "A"; ClickAddEmployee 0 "B";
   ClickAddTask 1 "first" 1; ClickAddTask 2 "second" 1;
   ClickRemoveEmployee "A"].

(** A session that ends with a connection left open. *)
Definition locked_session : list event :=
  [ClickAddEmployee 0 "A"; ClickAddEmployee 1 "A"].

(** A session without a removal. *)
Definition no_removal_session : list event :=
  [ClickAddEmployee 0 "A"; ClickAddTask 1 "first" 8; ClickAddEmployee 2 "B";
   ClickAddEmployee 3 ""; ClickAddTask 4 "" 1; ClickAddTask 5 "second" 2;
   ClickAddEmployee 6 "B"; ClickAddTask 7 "refused" 1; CollectorRuns;
   ClickAddTask 8 "third" 30].

(** ** The four numbers at the top of [dashboard] *)

Record metrics : Type := mkMetrics {
  total_employees : nat;
  total_tasks : nat;
  available_employees_count : nat;
  total_task_hours : Q
}.

(** Python's [sum] of numbers: from 0, left to right. *)
Definition py_sum (l : list Q) : Q := fold_left Qplus l 0.

(** [None] is the early [return] on an empty [employees] table. *)
Definition dashboard_metrics (db : Database) : option metrics :=
  let employees := DatabaseManager.get_all_employees db in
  let tasks := DatabaseManager.get_all_tasks db in
  match employees with
  | [] => None
  | _ :: _ =>
      Some {| total_employees := List.length employees;
              total_tasks := List.length tasks;
              available_employees_count :=
                List.length (filter DatabaseManager.is_available employees);
              total_task_hours :=
                py_sum (map DatabaseManager.duration tasks) |}
  end.

(** The phase-1 scenario with its two employee rows exchanged. *)
Definition phase1_swapped : Database :=
  {| employees := List.rev (employees phase1_example);
     tasks := tasks phase1_example |}.

(** The task id made from a count: [f"TASK_{n:03d}"]. *)
Definition task_label (n : nat) : string :=
  String.append "TASK_" (format_03d n).

(** The number a run of decimal digits stands for, as Python's [int]
    reads it; [None] when a character is not a digit. *)
Definition digits_value (s : string) : option nat :=
  option_map Nat.of_uint (DecimalString.NilEmpty.uint_of_string s).

(** No employee row has the empty string as its id. *)
Definition no_blank_employee (db : Database) : Prop :=
  has_employee "" db = false.

(** ** The store with the numbers SQLite keeps

    A REAL column holds an IEEE 754 double.  SQLite has no NaN: a NaN that
    is bound or computed becomes NULL, and arithmetic on NULL gives NULL, as
    arithmetic on NaN gives NaN; so NaN stands for NULL below.  A REAL
    column gives back negative zero as zero.  [duration] is NOT NULL. *)

Module Doubles.

Import PrimFloat.

Record EmployeeRow : Type := mkEmployeeRow {
  e_emp_id : string;
  e_current_workload : PrimFloat.float;
  e_next_free_time : PrimFloat.float;
  e_created_at : nat
}.

Record TaskRow : Type := mkTaskRow {
  t_task_id : string;
  t_description : string;
  t_duration : PrimFloat.float;
  t_assigned_to : string;
  t_created_at : nat
}.

Record Database : Type := mkDatabase {
  employees : list EmployeeRow;
  tasks : list TaskRow
}.

Definition init_database : Connected Database :=
  {| on_disk := {| employees := []; tasks := [] |}; write_lock := false |}.

(** What a REAL column gives back for what was stored in it. *)
Definition real_affinity (x : PrimFloat.float) : PrimFloat.float :=
  if PrimFloat.eqb x PrimFloat.zero then PrimFloat.zero else x.

Definition has_employee (i : string) (db : Database) : bool :=
  existsb (fun r => String.eqb (e_emp_id r) i) (employees db).

Definition has_task (i : string) (db : Database) : bool :=
  existsb (fun r => String.eqb (t_task_id r) i) (tasks db).

(** [INSERT INTO employees (emp_id) VALUES (?)] *)
Definition insert_employee (now : nat) (i : string) (db : Database)
  : outcome Database :=
  if has_employee i db then Raised IntegrityError
  else Returned
         {| employees :=
              employees db ++ [mkEmployeeRow i PrimFloat.zero PrimFloat.zero now];
            tasks := tasks db |}.

(** [INSERT INTO tasks (task_id, description, duration, assigned_to)
    VALUES (?, ?, ?, ?)]: NOT NULL on [duration], then PRIMARY KEY. *)
Definition insert_task (now : nat) (i d : string) (dur : PrimFloat.float)
    (a : string) (db : Database) : outcome Database :=
  if PrimFloat.is_nan dur then Raised IntegrityError
  else if has_task i db then Raised IntegrityError
  else Returned
         {| employees := employees db;
            tasks := tasks db ++ [mkTaskRow i d (real_affinity dur) a now] |}.

(** [DELETE FROM tasks WHERE assigned_to = ?] *)
Definition delete_tasks_of (i : string) (db : Database) : outcome Database :=
  Returned
    {| employees := employees db;
       tasks :=
         filter (fun r => negb (String.eqb (t_assigned_to r) i)) (tasks db) |}.

(** [DELETE FROM employees WHERE emp_id = ?] *)
Definition delete_employee (i : string) (db : Database) : outcome Database :=
  Returned
    {| employees :=
         filter (fun r => negb (String.eqb (e_emp_id r) i)) (employees db);
       tasks := tasks db |}.

(** [UPDATE employees SET current_workload = current_workload + ?,
    next_free_time = current_workload + ? WHERE emp_id = ?] *)
Definition update_workload (dur1 dur2 : PrimFloat.float) (a : string)
    (db : Database) : outcome Database :=
  Returned
    {| employees :=
         map (fun r =>
                if String.eqb (e_emp_id r) a
                then {| e_emp_id := e_emp_id r;
                        e_current_workload :=
                          real_affinity
                            (PrimFloat.add (e_current_workload r) dur1);
                        e_next_free_time :=
                          real_affinity
                            (PrimFloat.add (e_current_workload r) dur2);
                        e_created_at := e_created_at r |}
                else r)
             (employees db);
       tasks := tasks db |}.

(** [DELETE FROM tasks], [DELETE FROM employees] *)
Definition delete_everything (db : Database) : outcome Database :=
  Returned {| employees := []; tasks := [] |}.

(** The methods of [DatabaseManager] that write. *)

Definition add_employee (now : nat) (emp_id : string)
    (s : Connected Database) : reply bool * Connected Database :=
  except_integrity_error (write (insert_employee now emp_id) s).

Definition remove_employee (emp_id : string) (s : Connected Database)
  : reply unit * Connected Database :=
  write (fun db => db1 <- delete_tasks_of emp_id db ;;
                   delete_employee emp_id db1) s.

Definition add_task (now : nat) (task_id description : string)
    (duration : PrimFloat.float) (assigned_to : string)
    (s : Connected Database) : reply unit * Connected Database :=
  write (fun db =>
           db1 <- insert_task now task_id description duration assigned_to db ;;
           update_workload duration duration assigned_to db1) s.

Definition reset_all_data (s : Connected Database)
  : reply unit * Connected Database :=
  write delete_everything s.

(** Sequences of calls, with the collector running in between. *)

Inductive op : Type :=
| AddEmployee (now : nat) (emp_id : string)
| AddTask (now : nat) (task_id description : string)
    (duration : PrimFloat.float) (assigned_to : string)
| RemoveEmployee (emp_id : string)
| ResetAll
| CollectorRuns.

Definition apply_op (o : op) (s : Connected Database) : Connected Database :=
  match o with
  | AddEmployee now i => snd (add_employee now i s)
  | AddTask now i d dur a => snd (add_task now i d dur a s)
  | RemoveEmployee i => snd (remove_employee i s)
  | ResetAll => snd (reset_all_data s)
  | CollectorRuns => collect s
  end.

Definition run (ops : list op) (s : Connected Database) : Connected Database :=
  fold_left (fun x o => apply_op o x) ops s.

(** Every task creation names an employee that exists when the call is
    made. *)
Definition op_refs_ok (o : op) (s : Connected Database) : bool :=
  match o with
  | AddTask _ _ _ _ a => has_employee a (on_disk s)
  | _ => true
  end.

Fixpoint refs_ok (ops : list op) (s : Connected Database) : bool :=
  match ops with
  | [] => true
  | o :: rest => op_refs_ok o s && refs_ok rest (apply_op o s)
  end.

(** The durations of the tasks assigned to [i], oldest first. *)
Definition durations_of (i : string) (ts : list TaskRow)
  : list PrimFloat.float :=
  map t_duration (filter (fun r => String.eqb (t_assigned_to r) i) ts).

(** Their sum as the UPDATEs have computed it: from 0, oldest first, each
    partial sum kept in a REAL column. *)
Definition booked_hours (i : string) (ts : list TaskRow) : PrimFloat.float :=
  fold_left (fun acc d => real_affinity (PrimFloat.add acc d))
            (durations_of i ts) PrimFloat.zero.

(** Their sum written [d1 + (d2 + (... + 0))]. *)
Definition hours_right_to_left (i : string) (ts : list TaskRow)
  : PrimFloat.float :=
  fold_right PrimFloat.add PrimFloat.zero (durations_of i ts).

(** Their sum as Python's [sum] takes it over the newest-first listing. *)
Definition hours_newest_first (i : string) (ts : list TaskRow)
  : PrimFloat.float :=
  fold_left PrimFloat.add (List.rev (durations_of i ts)) PrimFloat.zero.

Definition count_employee (i : string) (db : Database) : nat :=
  List.length (filter (fun r => String.eqb (e_emp_id r) i) (employees db)).

(** Every employee row carries the hours booked on it. *)
Definition workload_matches (db : Database) : Prop :=
  forall r, In r (employees db) ->
            e_current_workload r = booked_hours (e_emp_id r) (tasks db).

(** Every task row names an employee row. *)
Definition references_exist (db : Database) : Prop :=
  forall t, In t (tasks db) -> has_employee (t_assigned_to t) db = true.

(** 0.1, 0.2 and 0.3 as doubles. *)
Definition tenth : PrimFloat.float := 0x1.999999999999ap-4%float.
Definition two_tenths : PrimFloat.float := 0x1.999999999999ap-3%float.
Definition three_tenths : PrimFloat.float := 0x1.3333333333333p-2%float.

(** 0.6 and 0.6000000000000001, its successor. *)
Definition six_tenths : PrimFloat.float := 0x1.3333333333333p-1%float.
Definition six_tenths_and_an_ulp : PrimFloat.float :=
  0x1.3333333333334p-1%float.

(** One employee, booked 0.1, 0.2 and 0.3 hours. *)
Definition rounding_example : list op :=
  [AddEmployee 0 "A";
   AddTask 1 "TASK_001" "first" tenth "A";
   AddTask 2 "TASK_002" "second" two_tenths "A";
   AddTask 3 "TASK_003" "third" three_tenths "A"].

(** The store after these three bookings. *)
Definition rounding_store : Connected Database :=
  run rounding_example init_database.


(** The same after a second, refused, creation of A: a connection is left
    open. *)
Definition locked_store : Connected Database :=
  run [AddEmployee 0 "A"; AddEmployee 1 "A"] init_database.

(** A sequence with failures in it: a duplicate employee, a reused task
    id, a NaN, infinities, a negative zero, a removal, and the collector. *)
Definition bookkeeping_example : list op :=
  [AddEmployee 0 "A"; AddEmployee 0 "B"; AddEmployee 1 "A";
   AddTask 1 "TASK_001" "refused: locked" tenth "A";
   CollectorRuns;
   AddTask 2 "TASK_001" "first" tenth "A";
   AddTask 3 "TASK_002" "second" two_tenths "B";
   AddTask 4 "TASK_002" "same id again" three_tenths "A";
   CollectorRuns;
   AddTask 5 "TASK_003" "not a number" PrimFloat.nan "A";
   CollectorRuns;
   AddTask 6 "TASK_003" "negative zero" PrimFloat.neg_zero "A";
   AddTask 7 "TASK_004" "third" three_tenths "A";
   AddTask 8 "TASK_005" "for ever" PrimFloat.infinity "B";
   AddTask 9 "TASK_006" "and back" PrimFloat.neg_infinity "B";
   RemoveEmployee "C"; AddEmployee 10 "C";
   AddTask 11 "TASK_007" "fourth" two_tenths "C"].

End Doubles.

(** * Properties *)

(** ** The order on keys *)

Section StringOrder.

Lemma ascii_compare_lt_trans (a b c : ascii) :
  Ascii.compare a b = Lt -> Ascii.compare b c = Lt -> Ascii.compare a c = Lt.
Proof.
  unfold Ascii.compare. rewrite !N.compare_lt_iff. apply N.lt_trans.
Qed.

Lemma ascii_compare_refl (a : ascii) : Ascii.compare a a = Eq.
Proof. unfold Ascii.compare. apply N.compare_refl. Qed.

Lemma string_compare_lt_trans (s1 : string) :
  forall s2 s3,
    String.compare s1 s2 = Lt -> String.compare s2 s3 = Lt ->
    String.compare s1 s3 = Lt.
Proof.
  induction s1 as [| a s1 IH]; intros [| b s2] [| c s3]; simpl;
    try discriminate; auto.
  destruct (Ascii.compare a b) eqn:Hab; try discriminate;
    destruct (Ascii.compare b c) eqn:Hbc; try discriminate; intros H1 H2.
  - apply Ascii.compare_eq_iff in Hab, Hbc. subst.
    rewrite ascii_compare_refl. eapply IH; eauto.
  - apply Ascii.compare_eq_iff in Hab. subst. now rewrite Hbc.
  - apply Ascii.compare_eq_iff in Hbc. subst. now rewrite Hab.
  - now rewrite (ascii_compare_lt_trans _ _ _ Hab Hbc).
Qed.

Lemma string_leb_cases (s1 s2 : string) :
  String.leb s1 s2 = true <-> String.compare s1 s2 = Lt \/ s1 = s2.
Proof.
  unfold String.leb. split.
  - destruct (String.compare s1 s2) eqn:H; try discriminate; auto.
    right. now apply String.compare_eq_iff.
  - intros [H | H].
    + now rewrite H.
    + subst. destruct (String.compare s2 s2) eqn:H; auto.
      pose proof (String.compare_antisym s2 s2) as A.
      rewrite H in A. discriminate.
Qed.

Lemma string_leb_refl (s : string) : String.leb s s = true.
Proof. apply string_leb_cases. now right. Qed.

Lemma string_leb_trans (s1 s2 s3 : string) :
  String.leb s1 s2 = true -> String.leb s2 s3 = true ->
  String.leb s1 s3 = true.
Proof.
  rewrite !string_leb_cases. intros [H1 | H1] [H2 | H2]; subst; auto.
  left. eapply string_compare_lt_trans; eauto.
Qed.

End StringOrder.

Lemma pair_leb_key_le (x y : Q * string) :
  PairOrder.leb x y = true <-> key_le x y.
Proof.
  unfold PairOrder.leb, key_le. split.
  - destruct (Qcompare (fst x) (fst y)) eqn:H; try discriminate; intros Hs.
    + right. split; auto. now apply Qeq_alt.
    + left. now apply Qlt_alt.
  - intros [H | [H Hs]].
    + now rewrite (proj1 (Qlt_alt _ _) H).
    + now rewrite (proj1 (Qeq_alt _ _) H).
Qed.

Lemma key_le_refl (x : Q * string) : key_le x x.
Proof. right. split; [reflexivity | apply string_leb_refl]. Qed.

Lemma key_le_trans (x y z : Q * string) :
  key_le x y -> key_le y z -> key_le x z.
Proof.
  unfold key_le. intros [H1 | [H1 S1]] [H2 | [H2 S2]].
  - left. eapply Qlt_trans; eauto.
  - left. now rewrite <- H2.
  - left. now rewrite H1.
  - right. split.
    + now rewrite H1.
    + eapply string_leb_trans; eauto.
Qed.

(** Two keys below one another carry the same id and equal numbers. *)
Lemma key_le_antisym (x y : Q * string) :
  key_le x y -> key_le y x -> fst x == fst y /\ snd x = snd y.
Proof.
  unfold key_le. intros [H1 | [H1 S1]] [H2 | [H2 S2]].
  - exfalso. apply (Qlt_irrefl (fst x)). eapply Qlt_trans; eauto.
  - exfalso. rewrite H2 in H1. now apply (Qlt_irrefl (fst x)).
  - exfalso. rewrite H1 in H2. now apply (Qlt_irrefl (fst y)).
  - split; auto. now apply String.leb_antisym.
Qed.

Lemma pair_leb_trans : Transitive (fun x y => is_true (PairOrder.leb x y)).
Proof.
  intros x y z. unfold is_true. rewrite !pair_leb_key_le. apply key_le_trans.
Qed.

(** ** What [sort] followed by [[0]] returns *)

Lemma sort_nonempty (l : list (Q * string)) :
  l <> [] -> exists p rest, PairSort.sort l = p :: rest.
Proof.
  intros Hl. destruct (PairSort.sort l) as [| p rest] eqn:E; eauto.
  exfalso. apply Hl.
  apply Permutation_nil. rewrite <- E. apply Permutation_sym, PairSort.Permuted_sort.
Qed.

Lemma sort_head_least (l : list (Q * string)) p rest :
  PairSort.sort l = p :: rest ->
  In p l /\ forall q, In q l -> key_le p q.
Proof.
  intros E. split.
  - apply (Permutation_in p (Permutation_sym (PairSort.Permuted_sort l))).
    rewrite E. now left.
  - intros q Hq.
    pose proof (PairSort.StronglySorted_sort l pair_leb_trans) as HS.
    rewrite E in HS. apply StronglySorted_inv in HS. destruct HS as [_ HF].
    apply (Permutation_in q (PairSort.Permuted_sort l)) in Hq.
    rewrite E in Hq. destruct Hq as [Hq | Hq].
    + subst. apply key_le_refl.
    + rewrite Forall_forall in HF. apply pair_leb_key_le. now apply HF.
Qed.

(** [first_id] after [sort] never raises on a non-empty list, and returns
    the id of a least key. *)
Lemma first_id_sort (l : list (Q * string)) :
  l <> [] ->
  exists p, In p l /\ (forall q, In q l -> key_le p q) /\
            TaskScheduler.first_id (PairSort.sort l) = Returned (Some (snd p)).
Proof.
  intros Hl. destruct (sort_nonempty l Hl) as (p & rest & E).
  exists p. destruct (sort_head_least l p rest E) as [Hin Hmin].
  repeat split; auto. now rewrite E.
Qed.

(** ** The assignment policy *)

Section Policy.

Import DatabaseManager TaskScheduler.

Lemma in_available_employees (es : list emp) (d : Q) (p : Q * string) :
  In p (available_employees es d) <->
  exists e, In e es /\ d <= available_hours e /\
            p = (current_workload e, emp_id e).
Proof.
  unfold available_employees. rewrite in_map_iff. split.
  - intros (e & <- & He). apply filter_In in He. destruct He as [He Hd].
    exists e. repeat split; auto. now apply Qle_bool_iff.
  - intros (e & He & Hd & ->). exists e. split; auto.
    apply filter_In. split; auto. now apply Qle_bool_iff.
Qed.

Lemma in_next_free_times (es : list emp) (p : Q * string) :
  In p (next_free_times es) <->
  exists e, In e es /\ p = (next_free_time e, emp_id e).
Proof.
  unfold next_free_times. rewrite in_map_iff. split.
  - intros (e & <- & He). eauto.
  - intros (e & He & ->). eauto.
Qed.

Lemma available_employees_nil (es : list emp) (d : Q) :
  (forall e, In e es -> ~ d <= available_hours e) ->
  available_employees es d = [].
Proof.
  intros H. destruct (available_employees es d) as [| p l] eqn:E; auto.
  assert (Hp : In p (available_employees es d)) by (rewrite E; now left).
  apply in_available_employees in Hp. destruct Hp as (e & He & Hd & _).
  now destruct (H e He).
Qed.

(** With nobody fitting, the method is the second sort. *)
Lemma find_best_employee_overflow_eq (db : Database) (d : Q) :
  get_all_employees db <> [] ->
  available_employees (get_all_employees db) d = [] ->
  find_best_employee db d =
  first_id (PairSort.sort (next_free_times (get_all_employees db))).
Proof.
  unfold find_best_employee. intros Hne Hnil.
  destruct (get_all_employees db) as [| e es]; [congruence |].
  now rewrite Hnil.
Qed.

(** A full employee has no hours left for a task of positive length. *)
Lemma full_employee_does_not_fit (db : Database) (d : Q) (e : emp) :
  In e (get_all_employees db) -> 9 <= current_workload e -> 0 < d ->
  ~ d <= available_hours e.
Proof.
  unfold get_all_employees. rewrite in_map_iff. intros (r & <- & _). simpl.
  intros Hw Hd Hle. unfold py_max, Qltb in Hle.
  destruct (Qle_bool (9 - e_current_workload r) 0) eqn:E; simpl in Hle.
  - apply (Qlt_irrefl 0). eapply Qlt_le_trans; eauto.
  - assert (H0 : 9 - e_current_workload r <= 0).
    { apply (Qplus_le_l _ _ (e_current_workload r)). ring_simplify. exact Hw. }
    apply Qle_bool_iff in H0. congruence.
Qed.

(** The method never raises: on a non-empty table it returns the id of
    one of the rows. *)
Lemma find_best_employee_returns (db : Database) (d : Q) :
  employees db <> [] ->
  exists e, In e (get_all_employees db) /\
            find_best_employee db d = Returned (Some (emp_id e)).
Proof.
  intros Hne. unfold find_best_employee.
  assert (Hs : get_all_employees db <> []).
  { unfold get_all_employees. destruct (employees db); [congruence |].
    discriminate. }
  destruct (get_all_employees db) as [| x xs] eqn:Es; [congruence |].
  destruct (available_employees (x :: xs) d) as [| a l] eqn:Ea.
  - assert (Hn : next_free_times (x :: xs) <> []) by discriminate.
    destruct (first_id_sort _ Hn) as (p & Hp & _ & ->).
    apply in_next_free_times in Hp. destruct Hp as (e & He & ->). eauto.
  - assert (Hn : available_employees (x :: xs) d <> [])
      by (rewrite Ea; discriminate).
    rewrite <- Ea.
    destruct (first_id_sort _ Hn) as (p & Hp & _ & ->).
    apply in_available_employees in Hp. destruct Hp as (e & He & _ & ->).
    eauto.
Qed.

(** ** The order of the rows does not matter

    The SELECT of [get_all_employees] has no ORDER BY.  Whatever order the
    rows come in, the method returns the same id. *)

Lemma permutation_filter {A : Type} (f : A -> bool) (l1 l2 : list A) :
  Permutation l1 l2 -> Permutation (filter f l1) (filter f l2).
Proof.
  induction 1 as [| x l1 l2 _ IH | x y l | l1 l2 l3 _ IH1 _ IH2]; simpl.
  - constructor.
  - destruct (f x); auto.
  - destruct (f x), (f y); auto. constructor.
  - now transitivity (filter f l2).
Qed.

Lemma first_id_sort_permutation (l1 l2 : list (Q * string)) :
  Permutation l1 l2 ->
  first_id (PairSort.sort l1) = first_id (PairSort.sort l2).
Proof.
  intros HP. destruct l1 as [| x l1].
  - apply Permutation_nil in HP. now subst.
  - assert (H1 : x :: l1 <> []) by discriminate.
    assert (H2 : l2 <> []).
    { intros ->. apply Permutation_sym, Permutation_nil in HP. discriminate. }
    destruct (first_id_sort _ H1) as (p1 & Hp1 & Hmin1 & ->).
    destruct (first_id_sort _ H2) as (p2 & Hp2 & Hmin2 & ->).
    assert (E : fst p1 == fst p2 /\ snd p1 = snd p2).
    { apply key_le_antisym.
      - apply Hmin1. apply (Permutation_in p2 (Permutation_sym HP) Hp2).
      - apply Hmin2. apply (Permutation_in p1 HP Hp1). }
    destruct E as [_ ->]. reflexivity.
Qed.

(** X12. The result of [find_best_employee] does not depend on the order
    in which the SELECT delivers the employee rows: two tables with the same
    rows in another order get the same answer. *)
Lemma find_best_employee_order_irrelevant (db1 db2 : Database) (d : Q) :
  Permutation (employees db1) (employees db2) ->
  find_best_employee db1 d = find_best_employee db2 d.
Proof.
  intros HP.
  assert (HS : Permutation (get_all_employees db1) (get_all_employees db2))
    by (unfold get_all_employees; now apply Permutation_map).
  assert (HA : Permutation (available_employees (get_all_employees db1) d)
                           (available_employees (get_all_employees db2) d))
    by (unfold available_employees;
        now apply Permutation_map, permutation_filter).
  assert (HN : Permutation (next_free_times (get_all_employees db1))
                           (next_free_times (get_all_employees db2)))
    by (unfold next_free_times; now apply Permutation_map).
  unfold find_best_employee.
  destruct (get_all_employees db1) as [| e1 es1];
    destruct (get_all_employees db2) as [| e2 es2].
  - reflexivity.
  - apply Permutation_nil in HS. discriminate.
  - apply Permutation_sym, Permutation_nil in HS. discriminate.
  - destruct (available_employees (e1 :: es1) d) as [| a1 l1];
      destruct (available_employees (e2 :: es2) d) as [| a2 l2].
    + now apply first_id_sort_permutation.
    + apply Permutation_nil in HA. discriminate.
    + apply Permutation_sym, Permutation_nil in HA. discriminate.
    + now apply first_id_sort_permutation.
Qed.

End Policy.

Section PolicyClaims.

Import DatabaseManager TaskScheduler.

(** C3. Whenever some employee of the snapshot has [available_hours >=
    task_duration], [find_best_employee] returns the id of an employee that
    fits and whose key [(current_workload, emp_id)] is below the key of
    every employee that fits.  In the scenario where A carries 2 hours and
    B carries 5, a task of 3 hours goes to A. *)
Theorem find_best_employee_fits_today :
  (forall (db : Database) (d : Q),
      (exists e, In e (get_all_employees db) /\ d <= available_hours e) ->
      exists e,
        In e (get_all_employees db) /\ d <= available_hours e /\
        find_best_employee db d = Returned (Some (emp_id e)) /\
        forall e', In e' (get_all_employees db) -> d <= available_hours e' ->
                   key_le (current_workload e, emp_id e)
                          (current_workload e', emp_id e'))
  /\ map (fun e => (emp_id e, current_workload e))
         (get_all_employees phase1_example)
     = [("A"%string, 2); ("B"%string, 5)]
  /\ find_best_employee phase1_example 3 = Returned (Some "A"%string).
Proof.
  split; [| split; reflexivity].
  intros db d (e0 & He0 & Hd0).
  assert (Hne : available_employees (get_all_employees db) d <> []).
  { intros E.
    assert (Hin : In (current_workload e0, emp_id e0)
                     (available_employees (get_all_employees db) d))
      by (apply in_available_employees; eauto).
    rewrite E in Hin. destruct Hin. }
  destruct (first_id_sort _ Hne) as (p & Hp & Hmin & Hret).
  apply in_available_employees in Hp. destruct Hp as (e & He & Hd & ->).
  exists e. repeat split; auto.
  - unfold find_best_employee.
    destruct (get_all_employees db) as [| x xs]; [destruct He |].
    destruct (available_employees (x :: xs) d) eqn:E; [congruence |].
    exact Hret.
  - intros e' He' Hd'. apply Hmin. apply in_available_employees. eauto.
Qed.

(** C3 on the phase-1 scenario. *)
Lemma find_best_employee_fits_today_witness :
  (exists e, In e (get_all_employees phase1_example) /\
             3 <= available_hours e) /\
  exists e,
    In e (get_all_employees phase1_example) /\ 3 <= available_hours e /\
    find_best_employee phase1_example 3 = Returned (Some (emp_id e)) /\
    forall e', In e' (get_all_employees phase1_example) ->
               3 <= available_hours e' ->
               key_le (current_workload e, emp_id e)
                      (current_workload e', emp_id e').
Proof.
  assert (H : exists e, In e (get_all_employees phase1_example) /\
                        3 <= available_hours e).
  { exists (mkEmp "A" 2 2 7 true). split.
    - left. reflexivity.
    - simpl. unfold Qle. simpl. lia. }
  split; [exact H |].
  exact (proj1 find_best_employee_fits_today phase1_example 3 H).
Defined.

(** C4. On a non-empty snapshot where nobody has [available_hours >=
    task_duration], [find_best_employee] returns the id of an employee whose
    key [(next_free_time, emp_id)] is below the key of every employee.  This
    is the case when every employee carries 9 hours or more and the duration
    is positive; in the scenario where A and B both carry 9 hours, every
    task of positive length goes to A. *)
Theorem find_best_employee_overflow :
  (forall (db : Database) (d : Q),
      get_all_employees db <> [] ->
      (forall e, In e (get_all_employees db) -> ~ d <= available_hours e) ->
      exists e,
        In e (get_all_employees db) /\
        find_best_employee db d = Returned (Some (emp_id e)) /\
        forall e', In e' (get_all_employees db) ->
                   key_le (next_free_time e, emp_id e)
                          (next_free_time e', emp_id e'))
  /\ (forall (db : Database) (d : Q),
         get_all_employees db <> [] ->
         (forall e, In e (get_all_employees db) -> current_workload e == 9) ->
         0 < d ->
         exists e,
           In e (get_all_employees db) /\
           find_best_employee db d = Returned (Some (emp_id e)) /\
           forall e', In e' (get_all_employees db) ->
                      key_le (next_free_time e, emp_id e)
                             (next_free_time e', emp_id e'))
  /\ map (fun e => (emp_id e, current_workload e))
         (get_all_employees phase2_example)
     = [("A"%string, 9); ("B"%string, 9)]
  /\ (forall d : Q, 0 < d ->
         find_best_employee phase2_example d = Returned (Some "A"%string)).
Proof.
  assert (G : forall (db : Database) (d : Q),
      get_all_employees db <> [] ->
      (forall e, In e (get_all_employees db) -> ~ d <= available_hours e) ->
      exists e,
        In e (get_all_employees db) /\
        find_best_employee db d = Returned (Some (emp_id e)) /\
        forall e', In e' (get_all_employees db) ->
                   key_le (next_free_time e, emp_id e)
                          (next_free_time e', emp_id e')).
  { intros db d Hne Hnone.
    rewrite (find_best_employee_overflow_eq db d Hne
               (available_employees_nil _ _ Hnone)).
    assert (Hn : next_free_times (get_all_employees db) <> []).
    { unfold next_free_times.
      destruct (get_all_employees db); [congruence | discriminate]. }
    destruct (first_id_sort _ Hn) as (p & Hp & Hmin & Hret).
    apply in_next_free_times in Hp. destruct Hp as (e & He & ->).
    exists e. repeat split; auto.
    intros e' He'. apply Hmin. apply in_next_free_times. eauto. }
  assert (F : forall (db : Database) (d : Q),
      (forall e, In e (get_all_employees db) -> current_workload e == 9) ->
      0 < d ->
      forall e, In e (get_all_employees db) -> ~ d <= available_hours e).
  { intros db d Hfull Hd e He.
    apply (full_employee_does_not_fit db d e He); auto.
    rewrite (Hfull e He). apply Qle_refl. }
  split; [exact G |]. split; [| split; [reflexivity |]].
  - intros db d Hne Hfull Hd. apply (G db d Hne). now apply F.
  - intros d Hd.
    rewrite (find_best_employee_overflow_eq phase2_example d).
    + reflexivity.
    + discriminate.
    + apply available_employees_nil. apply F; auto.
      intros e [<- | [<- | []]]; reflexivity.
Qed.

(** C4 on the phase-2 scenario, for a task of one hour. *)
Lemma find_best_employee_overflow_witness :
  (get_all_employees phase2_example <> [] /\
   (forall e, In e (get_all_employees phase2_example) ->
              ~ 1 <= available_hours e) /\
   (forall e, In e (get_all_employees phase2_example) ->
              current_workload e == 9) /\
   0 < 1) /\
  exists e,
    In e (get_all_employees phase2_example) /\
    find_best_employee phase2_example 1 = Returned (Some (emp_id e)) /\
    forall e', In e' (get_all_employees phase2_example) ->
               key_le (next_free_time e, emp_id e)
                      (next_free_time e', emp_id e').
Proof.
  assert (Hne : get_all_employees phase2_example <> []) by discriminate.
  assert (Hnone : forall e, In e (get_all_employees phase2_example) ->
                            ~ 1 <= available_hours e).
  { intros e [<- | [<- | []]]; simpl; unfold Qle; simpl; lia. }
  assert (Hfull : forall e, In e (get_all_employees phase2_example) ->
                            current_workload e == 9).
  { intros e [<- | [<- | []]]; reflexivity. }
  assert (Hpos : 0 < 1) by reflexivity.
  split; [auto |].
  destruct (proj1 (proj2 find_best_employee_overflow) phase2_example 1
              Hne Hfull Hpos) as (e & He & _).
  exact (proj1 find_best_employee_overflow phase2_example 1 Hne Hnone).
Defined.

(** C8. With no employee row, [find_best_employee] returns [None] for
    every duration and whatever the [tasks] table holds; it does not
    raise. *)
Theorem find_best_employee_empty_roster (ts : list TaskRow) (d : Q) :
  find_best_employee {| employees := []; tasks := ts |} d = Returned None.
Proof. reflexivity. Qed.

(** C9. Two calls that see the same list of employee dictionaries and
    numerically equal durations return the same result, whatever else the
    two databases hold. *)
Theorem find_best_employee_deterministic (db1 db2 : Database) (d1 d2 : Q) :
  get_all_employees db1 = get_all_employees db2 -> d1 == d2 ->
  find_best_employee db1 d1 = find_best_employee db2 d2.
Proof.
  intros Hs Hd. unfold find_best_employee. rewrite Hs.
  assert (E : available_employees (get_all_employees db2) d1
              = available_employees (get_all_employees db2) d2).
  { unfold available_employees. f_equal. apply filter_ext.
    intros e. now rewrite Hd. }
  now rewrite E.
Qed.

(** C9 on the phase-1 scenario: the [tasks] table and the way the
    duration is written do not matter. *)
Lemma find_best_employee_deterministic_witness :
  (get_all_employees phase1_example = get_all_employees phase1_no_tasks /\
   (1 # 2) == (2 # 4)) /\
  find_best_employee phase1_example (1 # 2)
  = find_best_employee phase1_no_tasks (2 # 4).
Proof.
  assert (Hs : get_all_employees phase1_example
               = get_all_employees phase1_no_tasks) by reflexivity.
  assert (Hd : (1 # 2) == (2 # 4)) by reflexivity.
  split; [auto |].
  exact (find_best_employee_deterministic
           phase1_example phase1_no_tasks _ _ Hs Hd).
Defined.

End PolicyClaims.

(** ** The store: keys and lookups *)

Lemma has_employee_iff (i : string) (db : Database) :
  has_employee i db = true <-> In i (map e_emp_id (employees db)).
Proof.
  unfold has_employee. rewrite existsb_exists, in_map_iff. split.
  - intros (r & Hr & E). apply String.eqb_eq in E. eauto.
  - intros (r & E & Hr). exists r. split; auto. now apply String.eqb_eq.
Qed.

Lemma has_task_iff (i : string) (db : Database) :
  has_task i db = true <-> In i (map t_task_id (tasks db)).
Proof.
  unfold has_task. rewrite existsb_exists, in_map_iff. split.
  - intros (r & Hr & E). apply String.eqb_eq in E. eauto.
  - intros (r & E & Hr). exists r. split; auto. now apply String.eqb_eq.
Qed.

Lemma has_employee_false_iff (i : string) (db : Database) :
  has_employee i db = false <-> ~ In i (map e_emp_id (employees db)).
Proof.
  rewrite <- has_employee_iff. destruct (has_employee i db); intuition congruence.
Qed.

Lemma filter_none {A : Type} (f : A -> bool) (l : list A) :
  (forall x, In x l -> f x = false) -> filter f l = [].
Proof.
  induction l as [| x l IH]; simpl; intros H; auto.
  rewrite (H x) by auto. apply IH. auto.
Qed.

Lemma filter_all {A : Type} (f : A -> bool) (l : list A) :
  (forall x, In x l -> f x = true) -> filter f l = l.
Proof.
  induction l as [| x l IH]; simpl; intros H; auto.
  rewrite (H x) by auto. f_equal. apply IH. auto.
Qed.

Lemma count_employee_absent (i : string) (db : Database) :
  has_employee i db = false -> count_employee i db = 0%nat.
Proof.
  intros H. unfold count_employee. rewrite filter_none; auto.
  intros r Hr. destruct (String.eqb_spec (e_emp_id r) i) as [E | E]; auto.
  apply has_employee_false_iff in H. destruct H.
  apply in_map_iff. eauto.
Qed.

Lemma count_employee_present (i : string) (db : Database) :
  NoDup (map e_emp_id (employees db)) ->
  has_employee i db = true -> count_employee i db = 1%nat.
Proof.
  unfold count_employee, has_employee.
  induction (employees db) as [| r l IH]; simpl; intros Hnd H.
  - discriminate.
  - inversion Hnd as [| ? ? Hnot Hnd']; subst.
    destruct (String.eqb_spec (e_emp_id r) i) as [E | E]; simpl.
    + f_equal. rewrite filter_none; auto.
      intros x Hx. destruct (String.eqb_spec (e_emp_id x) i) as [E' | E']; auto.
      destruct Hnot. rewrite E, <- E'. now apply in_map.
    + simpl in H. auto.
Qed.

Lemma unique_row (l : list EmployeeRow) (r1 r2 : EmployeeRow) :
  NoDup (map e_emp_id l) -> In r1 l -> In r2 l ->
  e_emp_id r1 = e_emp_id r2 -> r1 = r2.
Proof.
  induction l as [| x l IH]; simpl; intros Hnd H1 H2 E; [destruct H1 |].
  inversion Hnd as [| ? ? Hnot Hnd']; subst.
  destruct H1 as [-> | H1], H2 as [-> | H2]; auto.
  - destruct Hnot. rewrite E. now apply in_map.
  - destruct Hnot. rewrite <- E. now apply in_map.
Qed.

Lemma in_get_all_tasks (db : Database) (t : DatabaseManager.task) :
  In t (DatabaseManager.get_all_tasks db) <->
  exists r, In r (tasks db) /\
            t = DatabaseManager.mkTask (t_task_id r) (t_description r)
                  (t_duration r) (t_assigned_to r) (t_created_at r).
Proof.
  unfold DatabaseManager.get_all_tasks. rewrite in_map_iff. split.
  - intros (r & <- & Hr). exists r. split; auto.
    apply (Permutation_in r
             (Permutation_sym (CreatedDescSort.Permuted_sort (tasks db))) Hr).
  - intros (r & Hr & ->). exists r. split; auto.
    apply (Permutation_in r (CreatedDescSort.Permuted_sort (tasks db)) Hr).
Qed.

(** ** Primary keys stay unique *)

Lemma NoDup_snoc {A : Type} (l : list A) (x : A) :
  NoDup l -> ~ In x l -> NoDup (l ++ [x]).
Proof.
  intros Hl Hx. apply NoDup_app; auto.
  - repeat constructor. intros [].
  - intros a Ha [<- | []]. contradiction.
Qed.

Lemma NoDup_map_filter {A B : Type} (k : A -> B) (f : A -> bool) (l : list A) :
  NoDup (map k l) -> NoDup (map k (filter f l)).
Proof.
  induction l as [| x l IH]; simpl; intros H; auto.
  inversion H as [| ? ? Hnot Hnd]; subst.
  destruct (f x); simpl; auto. constructor; auto.
  intros Hin. apply Hnot. apply in_map_iff in Hin.
  destruct Hin as (y & E & Hy). apply filter_In in Hy.
  apply in_map_iff. exists y. tauto.
Qed.

Lemma update_keeps_ids (dur1 dur2 : Q) (a : string) (l : list EmployeeRow) :
  map e_emp_id
      (map (fun r =>
              if String.eqb (e_emp_id r) a
              then {| e_emp_id := e_emp_id r;
                      e_current_workload := e_current_workload r + dur1;
                      e_next_free_time := e_current_workload r + dur2;
                      e_created_at := e_created_at r |}
              else r) l)
  = map e_emp_id l.
Proof.
  rewrite map_map. apply map_ext. intros r.
  now destruct (String.eqb (e_emp_id r) a).
Qed.

Lemma apply_op_keys_unique (o : op) (db : Database) :
  keys_unique db -> keys_unique (apply_op o db).
Proof.
  unfold keys_unique. intros [He Ht]. destruct o as [now i | now i d dur a | i |]; simpl.
  - unfold DatabaseManager.add_employee, insert_employee.
    destruct (has_employee i db) eqn:E; simpl; auto.
    split; auto. rewrite map_app. apply NoDup_snoc; auto.
    now apply has_employee_false_iff.
  - unfold DatabaseManager.add_task, insert_task.
    destruct (has_task i db) eqn:E; simpl; auto.
    rewrite update_keeps_ids. split; auto.
    rewrite map_app. apply NoDup_snoc; auto.
    simpl. rewrite <- has_task_iff, E. discriminate.
  - split; now apply NoDup_map_filter.
  - split; constructor.
Qed.

Lemma run_keys_unique (ops : list op) (db : Database) :
  keys_unique db -> keys_unique (run ops db).
Proof.
  revert db. induction ops as [| o ops IH]; intros db H; simpl; auto.
  apply IH. now apply apply_op_keys_unique.
Qed.

Section StoreClaims.

Import DatabaseManager.

(** C2. When [assigned_to] is the key of a row and the task id is new,
    [add_task] returns, and afterwards the row of that employee has
    [next_free_time] equal to the workload before the call plus the
    duration, which is also its new [current_workload]. *)
Theorem add_task_sets_next_free_time (now : nat) (i d : string) (dur : Q)
    (db : Database) (r : EmployeeRow) :
  NoDup (map e_emp_id (employees db)) ->
  In r (employees db) ->
  has_task i db = false ->
  exists db',
    add_task now i d dur (e_emp_id r) db = Returned db' /\
    has_employee (e_emp_id r) db' = true /\
    forall r', In r' (employees db') -> e_emp_id r' = e_emp_id r ->
               e_next_free_time r' = e_current_workload r + dur /\
               e_current_workload r' = e_current_workload r + dur /\
               e_next_free_time r' = e_current_workload r'.
Proof.
  intros Hnd Hr Hfresh. unfold add_task, insert_task. rewrite Hfresh. simpl.
  eexists. split; [reflexivity |]. split.
  - apply has_employee_iff. simpl. rewrite update_keeps_ids. now apply in_map.
  - simpl. intros r' Hr' E. apply in_map_iff in Hr'.
    destruct Hr' as (r0 & <- & Hr0).
    destruct (String.eqb_spec (e_emp_id r0) (e_emp_id r)) as [E0 | E0].
    + rewrite (unique_row _ r0 r Hnd Hr0 Hr E0). simpl. auto.
    + contradiction.
Qed.

(** C2 on the phase-1 scenario: three more hours for A, who carries 2. *)
Lemma add_task_sets_next_free_time_witness :
  (NoDup (map e_emp_id (employees phase1_example)) /\
   In (mkEmployeeRow "A" (0 + 2) (0 + 2) 0) (employees phase1_example) /\
   has_task "TASK_003" phase1_example = false) /\
  exists db',
    add_task 3 "TASK_003" "three hours" 3 "A" phase1_example = Returned db' /\
    has_employee "A" db' = true /\
    forall r', In r' (employees db') -> e_emp_id r' = "A"%string ->
               e_next_free_time r' = 0 + 2 + 3 /\
               e_current_workload r' = 0 + 2 + 3 /\
               e_next_free_time r' = e_current_workload r'.
Proof.
  assert (Hnd : NoDup (map e_emp_id (employees phase1_example))).
  { apply (run_keys_unique _ init_database). split; constructor. }
  assert (Hin : In (mkEmployeeRow "A" (0 + 2) (0 + 2) 0)
                   (employees phase1_example)) by (left; reflexivity).
  assert (Hfresh : has_task "TASK_003" phase1_example = false) by reflexivity.
  split; [auto |].
  exact (add_task_sets_next_free_time 3 "TASK_003" "three hours" 3
           phase1_example (mkEmployeeRow "A" (0 + 2) (0 + 2) 0)
           Hnd Hin Hfresh).
Defined.

(** A task id that is already a key makes the INSERT, and so [add_task],
    raise; nothing is written. *)
Lemma add_task_duplicate_id (now : nat) (i d : string) (dur : Q) (a : string)
    (db : Database) :
  has_task i db = true ->
  add_task now i d dur a db = Raised IntegrityError.
Proof. intros H. unfold add_task, insert_task. now rewrite H. Qed.

(** Without a row for [assigned_to], [add_task] still writes the task; the
    UPDATE matches nothing. *)
Lemma add_task_without_employee (now : nat) (i d : string) (dur : Q)
    (a : string) (db : Database) :
  has_employee a db = false -> has_task i db = false ->
  add_task now i d dur a db =
  Returned {| employees := employees db;
              tasks := tasks db ++ [mkTaskRow i d dur a now] |}.
Proof.
  intros Ha Hi. unfold add_task, insert_task. rewrite Hi. simpl.
  unfold update_workload. simpl. do 2 f_equal.
  rewrite <- (map_id (employees db)) at 2. apply map_ext_in.
  intros r Hr. destruct (String.eqb_spec (e_emp_id r) a) as [E | E]; auto.
  apply has_employee_false_iff in Ha. destruct Ha.
  rewrite <- E. now apply in_map.
Qed.

(** C5. On the empty store, [add_task] for the employee id "ghost", which
    no row carries, does not raise: it returns with the task row written
    and visible to [get_all_tasks], and with no employee row. *)
Theorem add_task_unknown_employee_is_written :
  exists db',
    add_task 1 "TASK_001" "orphan" 1 "ghost" init_database = Returned db' /\
    has_employee "ghost" init_database = false /\
    employees db' = [] /\
    get_all_tasks db' = [mkTask "TASK_001" "orphan" 1 "ghost" 1].
Proof.
  eexists. split; [reflexivity |]. repeat split.
Qed.

(** C7. [remove_employee] returns for every id; afterwards no employee row
    carries the id and no task of [get_all_tasks] is assigned to it.  A
    second call changes nothing.  When no employee row carried the id, the
    [employees] table is the one before the call, and so is the whole
    database when every task names an employee. *)
Theorem remove_employee_cascades (i : string) (db : Database) :
  exists db',
    remove_employee i db = Returned db' /\
    has_employee i db' = false /\
    (forall t, In t (get_all_tasks db') -> assigned_to t <> i) /\
    remove_employee i db' = Returned db' /\
    (has_employee i db = false -> employees db' = employees db) /\
    (has_employee i db = false -> references_exist db -> db' = db).
Proof.
  assert (Keep : has_employee i db = false ->
                 filter (fun r => negb (String.eqb (e_emp_id r) i))
                        (employees db) = employees db).
  { intros H. apply filter_all. intros r Hr.
    destruct (String.eqb_spec (e_emp_id r) i) as [E | E]; auto.
    apply has_employee_false_iff in H. destruct H.
    rewrite <- E. now apply in_map. }
  eexists. split; [reflexivity |]. simpl. repeat split.
  - apply has_employee_false_iff. simpl. rewrite in_map_iff.
    intros (r & E & Hr). apply filter_In in Hr. destruct Hr as [_ Hr].
    rewrite E, String.eqb_refl in Hr. discriminate.
  - intros t Ht. apply in_get_all_tasks in Ht. destruct Ht as (r & Hr & ->).
    simpl in *. apply filter_In in Hr. destruct Hr as [_ Hr].
    intros E. rewrite E, String.eqb_refl in Hr. discriminate.
  - unfold remove_employee. simpl. unfold delete_employee. simpl.
    do 2 f_equal; apply filter_all; intros r Hr;
      apply filter_In in Hr; tauto.
  - exact Keep.
  - intros H Href. destruct db as [es ts]. simpl in *. f_equal.
    + now apply Keep.
    + apply filter_all. intros r Hr.
      destruct (String.eqb_spec (t_assigned_to r) i) as [E | E]; auto.
      specialize (Href r Hr). rewrite E in Href.
      unfold has_employee in *. simpl in *. congruence.
Qed.

(** C7 on the phase-1 scenario, for an id that was never added. *)
Lemma remove_employee_cascades_witness :
  (has_employee "C" phase1_example = false /\
   references_exist phase1_example) /\
  remove_employee "C" phase1_example = Returned phase1_example.
Proof.
  assert (Habs : has_employee "C" phase1_example = false) by reflexivity.
  assert (Href : references_exist phase1_example).
  { intros r [<- | [<- | []]]; reflexivity. }
  split; [auto |].
  destruct (remove_employee_cascades "C" phase1_example)
    as (db' & Hrun & _ & _ & _ & _ & Hsame).
  rewrite Hrun. f_equal. now apply Hsame.
Defined.

(** C10. [remove_employee] leaves the rest alone: an employee row with
    another id is in the table after the call exactly when it was there
    before, with the same fields, and the same holds for a task row
    assigned to another id, in the table and in [get_all_tasks]. *)
Theorem remove_employee_frame (i : string) (db : Database) :
  exists db',
    remove_employee i db = Returned db' /\
    (forall r, e_emp_id r <> i ->
               (In r (employees db') <-> In r (employees db))) /\
    (forall r, t_assigned_to r <> i ->
               (In r (tasks db') <-> In r (tasks db))) /\
    (forall t, assigned_to t <> i ->
               (In t (get_all_tasks db') <-> In t (get_all_tasks db))).
Proof.
  eexists. split; [reflexivity |]. simpl. repeat split.
  - intros Hin. apply filter_In in Hin. tauto.
  - intros Hr. apply filter_In. split; auto.
    now destruct (String.eqb_spec (e_emp_id r) i).
  - intros Hin. apply filter_In in Hin. tauto.
  - intros Hr. apply filter_In. split; auto.
    now destruct (String.eqb_spec (t_assigned_to r) i).
  - rewrite !in_get_all_tasks. intros (r & Hr & ->). exists r. split; auto.
    simpl in Hr. apply filter_In in Hr. tauto.
  - rewrite !in_get_all_tasks. intros (r & Hr & ->). exists r. split; auto.
    simpl in *. apply filter_In. split; auto.
    now destruct (String.eqb_spec (t_assigned_to r) i).
Qed.

(** C10 on the phase-1 scenario: removing A keeps the row and the task
    of B. *)
Lemma remove_employee_frame_witness :
  exists db',
    remove_employee "A" phase1_example = Returned db' /\
    In (mkEmployeeRow "B" (0 + 5) (0 + 5) 0) (employees db') /\
    In (mkTaskRow "TASK_002" "five hours" 5 "B" 2) (tasks db').
Proof.
  destruct (remove_employee_frame "A" phase1_example)
    as (db' & Hrun & Hemp & Htask & _).
  exists db'. split; [exact Hrun |]. split.
  - apply (Hemp (mkEmployeeRow "B" (0 + 5) (0 + 5) 0)).
    + discriminate.
    + right. left. reflexivity.
  - apply (Htask (mkTaskRow "TASK_002" "five hours" 5 "B" 2)).
    + discriminate.
    + right. left. reflexivity.
Defined.

End StoreClaims.

(** ** Workload bookkeeping along a sequence of calls *)

Lemma assigned_hours_app (i : string) (l1 l2 : list TaskRow) :
  assigned_hours i (l1 ++ l2) == assigned_hours i l1 + assigned_hours i l2.
Proof.
  unfold assigned_hours. rewrite filter_app, map_app.
  induction (map t_duration
               (filter (fun r => String.eqb (t_assigned_to r) i) l1))
    as [| x l IH]; simpl.
  - ring.
  - rewrite IH. ring.
Qed.

Lemma assigned_hours_unreferenced (i : string) (ts : list TaskRow) :
  (forall r, In r ts -> t_assigned_to r <> i) -> assigned_hours i ts = 0.
Proof.
  intros H. unfold assigned_hours. rewrite filter_none; auto.
  intros r Hr. destruct (String.eqb_spec (t_assigned_to r) i); auto.
  now destruct (H r Hr).
Qed.

Lemma assigned_hours_after_delete (i j : string) (ts : list TaskRow) :
  i <> j ->
  assigned_hours i
    (filter (fun r => negb (String.eqb (t_assigned_to r) j)) ts)
  = assigned_hours i ts.
Proof.
  intros Hij. unfold assigned_hours. f_equal.
  induction ts as [| r ts IH]; simpl; auto.
  destruct (String.eqb_spec (t_assigned_to r) j) as [Ej | Ej]; simpl.
  - destruct (String.eqb_spec (t_assigned_to r) i) as [Ei | Ei]; auto.
    congruence.
  - destruct (String.eqb (t_assigned_to r) i); simpl; now rewrite IH.
Qed.

Lemma add_employee_keeps_bookkeeping (now : nat) (i : string) (db : Database) :
  workload_matches db -> references_exist db ->
  workload_matches (apply_op (AddEmployee now i) db) /\
  references_exist (apply_op (AddEmployee now i) db).
Proof.
  intros HW HR. simpl.
  unfold DatabaseManager.add_employee, insert_employee.
  destruct (has_employee i db) eqn:E; simpl; auto. split.
  - intros r Hr. simpl in *. apply in_app_or in Hr.
    destruct Hr as [Hr | [<- | []]]; auto. simpl.
    rewrite assigned_hours_unreferenced; [reflexivity |].
    intros t Ht Ea. specialize (HR t Ht). congruence.
  - intros t Ht. simpl in *. specialize (HR t Ht).
    unfold has_employee in *. simpl. rewrite existsb_app, HR. reflexivity.
Qed.

Lemma add_task_keeps_bookkeeping (now : nat) (i d : string) (dur : Q)
    (a : string) (db : Database) :
  has_employee a db = true ->
  workload_matches db -> references_exist db ->
  workload_matches (apply_op (AddTask now i d dur a) db) /\
  references_exist (apply_op (AddTask now i d dur a) db).
Proof.
  intros Ha HW HR. simpl.
  unfold DatabaseManager.add_task, insert_task.
  destruct (has_task i db) eqn:E; simpl; auto.
  assert (Ids : forall x,
             has_employee x
               {| employees :=
                    map (fun r =>
                           if String.eqb (e_emp_id r) a
                           then {| e_emp_id := e_emp_id r;
                                   e_current_workload :=
                                     e_current_workload r + dur;
                                   e_next_free_time :=
                                     e_current_workload r + dur;
                                   e_created_at := e_created_at r |}
                           else r) (employees db);
                  tasks := tasks db ++ [mkTaskRow i d dur a now] |}
             = has_employee x db).
  { intros x. apply eq_true_iff_eq. rewrite !has_employee_iff. simpl.
    now rewrite update_keeps_ids. }
  split.
  - intros r' Hr'. simpl in *. apply in_map_iff in Hr'.
    destruct Hr' as (r & <- & Hr). specialize (HW r Hr).
    rewrite assigned_hours_app.
    destruct (String.eqb_spec (e_emp_id r) a) as [Ea | Ea]; simpl.
    + unfold assigned_hours at 2. simpl.
      rewrite <- Ea, String.eqb_refl. simpl. rewrite HW, Ea. ring.
    + unfold assigned_hours at 2. simpl.
      destruct (String.eqb_spec a (e_emp_id r)) as [Ea' | Ea'];
        [congruence |].
      simpl. rewrite HW. ring.
  - intros t Ht. rewrite Ids. simpl in Ht. apply in_app_or in Ht.
    destruct Ht as [Ht | [<- | []]]; auto.
Qed.

Lemma remove_employee_keeps_bookkeeping (i : string) (db : Database) :
  workload_matches db -> references_exist db ->
  workload_matches (apply_op (RemoveEmployee i) db) /\
  references_exist (apply_op (RemoveEmployee i) db).
Proof.
  intros HW HR. simpl. split.
  - intros r Hr. simpl in *. apply filter_In in Hr. destruct Hr as [Hr Hi].
    rewrite assigned_hours_after_delete; auto.
    intros E. rewrite E, String.eqb_refl in Hi. discriminate.
  - intros t Ht. simpl in *. apply filter_In in Ht. destruct Ht as [Ht Hi].
    specialize (HR t Ht). apply has_employee_iff in HR.
    apply has_employee_iff. simpl. apply in_map_iff in HR.
    destruct HR as (r & E & Hr). apply in_map_iff. exists r. split; auto.
    apply filter_In. split; auto. now rewrite E.
Qed.

Lemma apply_op_keeps_bookkeeping (o : op) (db : Database) :
  op_refs_ok o db = true ->
  workload_matches db -> references_exist db ->
  workload_matches (apply_op o db) /\ references_exist (apply_op o db).
Proof.
  destruct o as [now i | now i d dur a | i |]; intros Hok HW HR.
  - now apply add_employee_keeps_bookkeeping.
  - now apply add_task_keeps_bookkeeping.
  - now apply remove_employee_keeps_bookkeeping.
  - split; intros r [].
Qed.

Lemma run_keeps_bookkeeping (ops : list op) :
  forall db,
    refs_ok ops db = true ->
    workload_matches db -> references_exist db ->
    workload_matches (run ops db) /\ references_exist (run ops db).
Proof.
  induction ops as [| o ops IH]; intros db Hok HW HR; simpl in *; auto.
  apply andb_true_iff in Hok. destruct Hok as [Ho Hrest].
  destruct (apply_op_keeps_bookkeeping o db Ho HW HR) as [HW' HR'].
  now apply IH.
Qed.

(** ** The example sequence, evaluated *)

Example bookkeeping_example_employees :
  map (fun r => (e_emp_id r, e_current_workload r, e_next_free_time r))
      (employees (run bookkeeping_example init_database))
  = [("A"%string, 5, 5); ("B"%string, 1, 1)].
Proof. reflexivity. Qed.

Example bookkeeping_example_tasks :
  map (fun t => (DatabaseManager.task_id t, DatabaseManager.duration t,
                 DatabaseManager.assigned_to t))
      (DatabaseManager.get_all_tasks (run bookkeeping_example init_database))
  = [("TASK_002"%string, 1, "B"%string); ("TASK_003"%string, 3, "A"%string);
     ("TASK_001"%string, 2, "A"%string)].
Proof. reflexivity. Qed.

Example bookkeeping_example_next_assignee :
  TaskScheduler.find_best_employee (run bookkeeping_example init_database) 1
  = Returned (Some "B"%string).
Proof. reflexivity. Qed.

(** * More of the store *)

(** ** [get_all_tasks]: newest first, nothing lost *)

Lemma created_desc_leb_trans :
  Transitive (fun x y => is_true (CreatedDescOrder.leb x y)).
Proof.
  intros x y z. unfold is_true, CreatedDescOrder.leb.
  rewrite !Nat.leb_le. intros H1 H2. eapply Nat.le_trans; eauto.
Qed.

Lemma StronglySorted_map {A B : Type} (R : A -> A -> Prop) (S : B -> B -> Prop)
    (f : A -> B) (l : list A) :
  (forall x y, R x y -> S (f x) (f y)) ->
  StronglySorted R l -> StronglySorted S (map f l).
Proof.
  intros HRS. induction 1 as [| x l Hl IH Hx]; simpl; constructor; auto.
  rewrite Forall_forall in *. intros y Hy. apply in_map_iff in Hy.
  destruct Hy as (z & <- & Hz). auto.
Qed.

Section TaskListing.

Import DatabaseManager.

(** X1. [get_all_tasks] lists the task ids of the table, each as often as
    the table has it, so as many entries as there are rows; the entries come
    with [created_at] never increasing from one to the next. *)
Theorem get_all_tasks_newest_first (db : Database) :
  Permutation (map task_id (get_all_tasks db)) (map t_task_id (tasks db)) /\
  List.length (get_all_tasks db) = List.length (tasks db) /\
  StronglySorted (fun a b => (created_at b <= created_at a)%nat)
                 (get_all_tasks db).
Proof.
  unfold get_all_tasks. split; [| split].
  - rewrite map_map. simpl. apply Permutation_map.
    apply Permutation_sym, CreatedDescSort.Permuted_sort.
  - rewrite length_map. apply Permutation_length.
    apply Permutation_sym, CreatedDescSort.Permuted_sort.
  - apply (StronglySorted_map
             (fun x y => is_true (CreatedDescOrder.leb x y))).
    + intros x y H. simpl. now apply Nat.leb_le.
    + apply CreatedDescSort.StronglySorted_sort, created_desc_leb_trans.
Qed.

(** X2. In every dictionary of [get_all_employees], [available_hours] is
    never negative; [is_available] says that the workload is below 9, which
    is when [available_hours] is positive and equal to 9 minus the workload;
    otherwise [available_hours] is 0. *)
Theorem get_all_employees_capacity (db : Database) (e : emp) :
  In e (get_all_employees db) ->
  0 <= available_hours e /\
  (is_available e = true <-> current_workload e < 9) /\
  (is_available e = true <-> 0 < available_hours e) /\
  (is_available e = true -> available_hours e == 9 - current_workload e) /\
  (is_available e = false -> available_hours e == 0).
Proof.
  unfold get_all_employees. rewrite in_map_iff. intros (r & <- & _). simpl.
  set (w := e_current_workload r).
  assert (Lt9 : Qltb w 9 = true <-> w < 9).
  { unfold Qltb. rewrite negb_true_iff, <- not_true_iff_false, Qle_bool_iff.
    split; [apply Qnot_le_lt | apply Qlt_not_le]. }
  assert (Pos : Qltb 0 (9 - w) = Qltb w 9).
  { apply eq_true_iff_eq. rewrite Lt9. unfold Qltb.
    rewrite negb_true_iff, <- not_true_iff_false, Qle_bool_iff. split.
    - intros H. apply Qnot_le_lt in H.
      apply (Qplus_lt_l _ _ (- w)). ring_simplify.
      setoid_replace (-1 * w + 9) with (9 - w) by ring. exact H.
    - intros H. apply Qlt_not_le.
      apply (Qplus_lt_l _ _ w). ring_simplify. exact H. }
  unfold py_max. rewrite Pos.
  destruct (Qltb w 9) eqn:E.
  - assert (H9 : w < 9) by now apply Lt9.
    assert (Hp : 0 < 9 - w).
    { apply (Qplus_lt_l _ _ w). ring_simplify. exact H9. }
    split; [now apply Qlt_le_weak |]. split; [exact Lt9 |].
    split; [tauto |]. split; [reflexivity | discriminate].
  - split; [apply Qle_refl |]. split; [exact Lt9 |].
    split; [| split; [discriminate | reflexivity]].
    split; [discriminate |].
    intros H. now apply Qlt_irrefl in H.
Qed.

(** X2 on the phase-1 scenario: A carries 2 hours. *)
Lemma get_all_employees_capacity_witness :
  In (mkEmp "A" 2 2 7 true) (get_all_employees phase1_example) /\
  0 <= 7 /\
  (true = true <-> 2 < 9) /\
  (true = true <-> 0 < 7) /\
  (true = true -> 7 == 9 - 2) /\
  (true = false -> 7 == 0).
Proof.
  assert (H : In (mkEmp "A" 2 2 7 true) (get_all_employees phase1_example))
    by (left; reflexivity).
  split; [exact H |].
  exact (get_all_employees_capacity phase1_example _ H).
Defined.

End TaskListing.

(** ** Writes: what they change and what they leave *)

Lemma filter_comm {A : Type} (f g : A -> bool) (l : list A) :
  filter f (filter g l) = filter g (filter f l).
Proof.
  induction l as [| x l IH]; simpl; auto.
  destruct (f x) eqn:Ef, (g x) eqn:Eg; simpl; rewrite ?Ef, ?Eg, IH; auto.
Qed.

Lemma filter_snoc_out {A : Type} (f : A -> bool) (l : list A) (x : A) :
  f x = false -> (forall y, In y l -> f y = true) -> filter f (l ++ [x]) = l.
Proof.
  intros Hx Hl. rewrite filter_app. simpl. rewrite Hx, app_nil_r.
  now apply filter_all.
Qed.

Section Writes.

Import DatabaseManager TaskScheduler.

(** X3. [reset_all_data] returns on every database and leaves the one
    [init_database] creates: both listings are empty, the policy answers
    [None], the dashboard has nothing to show. *)
Theorem reset_all_data_empties (db : Database) (d : Q) :
  exists db',
    reset_all_data db = Returned db' /\
    db' = init_database /\
    get_all_employees db' = [] /\
    get_all_tasks db' = [] /\
    find_best_employee db' d = Returned None /\
    dashboard_metrics db' = None.
Proof.
  eexists. split; [reflexivity |]. repeat split.
Qed.

(** X4. Whatever calls are made from the empty store, no two employee rows
    share an [emp_id] and no two task rows share a [task_id]. *)
Theorem primary_keys_stay_unique (ops : list op) :
  NoDup (map e_emp_id (employees (run ops init_database))) /\
  NoDup (map t_task_id (tasks (run ops init_database))).
Proof.
  apply (run_keys_unique ops init_database). split; constructor.
Qed.

(** X5. As long as every [add_task] names an employee that exists when it
    is called, every task of [get_all_tasks] is assigned to an employee of
    [get_all_employees]: removing an employee leaves no task behind. *)
Theorem listed_tasks_have_employees (ops : list op) :
  refs_ok ops init_database = true ->
  forall t, In t (get_all_tasks (run ops init_database)) ->
            In (assigned_to t)
               (map emp_id (get_all_employees (run ops init_database))).
Proof.
  intros Hok t Ht.
  assert (HR : references_exist (run ops init_database)).
  { apply (run_keeps_bookkeeping ops init_database Hok); intros r []. }
  apply in_get_all_tasks in Ht. destruct Ht as (r & Hr & ->). simpl.
  specialize (HR r Hr). apply has_employee_iff in HR.
  unfold get_all_employees. rewrite map_map. simpl. exact HR.
Qed.

(** X5 on the example sequence. *)
Lemma listed_tasks_have_employees_witness :
  refs_ok bookkeeping_example init_database = true /\
  forall t, In t (get_all_tasks (run bookkeeping_example init_database)) ->
            In (assigned_to t)
               (map emp_id
                  (get_all_employees (run bookkeeping_example init_database))).
Proof.
  split; [reflexivity |].
  apply (listed_tasks_have_employees bookkeeping_example). reflexivity.
Defined.

(** X7. A call of [add_task] that returns touches one employee only: a row
    with another [emp_id] is in the table afterwards exactly when it was
    there before, unchanged; and every task row of before is still there. *)
Theorem add_task_frame (now : nat) (i d : string) (dur : Q) (a : string)
    (db db' : Database) :
  add_task now i d dur a db = Returned db' ->
  (forall r, e_emp_id r <> a ->
             (In r (employees db') <-> In r (employees db))) /\
  (forall t, In t (tasks db) -> In t (tasks db')).
Proof.
  unfold add_task, insert_task. destruct (has_task i db); simpl;
    [discriminate |].
  intros E. injection E as <-. simpl. split.
  - intros r Hr. rewrite in_map_iff. split.
    + intros (r0 & E0 & H0).
      destruct (String.eqb_spec (e_emp_id r0) a) as [Ea | Ea].
      * subst r. simpl in Hr. contradiction.
      * now subst.
    + intros H. exists r. split; auto.
      now destruct (String.eqb_spec (e_emp_id r) a).
  - intros t Ht. apply in_or_app. now left.
Qed.

(** X7 on the phase-1 scenario: a task for A leaves the row of B. *)
Lemma add_task_frame_witness :
  exists db',
    add_task 3 "TASK_003" "new" 4 "A" phase1_example = Returned db' /\
    In (mkEmployeeRow "B" (0 + 5) (0 + 5) 0) (employees db').
Proof.
  eexists. split; [reflexivity |].
  apply (proj1 (add_task_frame 3 "TASK_003" "new" 4 "A" phase1_example _
                  eq_refl) (mkEmployeeRow "B" (0 + 5) (0 + 5) 0)).
  - discriminate.
  - right. left. reflexivity.
Defined.

(** X8. Adding an employee and removing it again gives back the database
    one started from, when the id was new and no task was assigned to
    it. *)
Theorem add_then_remove_employee (now : nat) (i : string) (db : Database) :
  has_employee i db = false ->
  (forall t, In t (tasks db) -> t_assigned_to t <> i) ->
  exists db1,
    add_employee now i db = Returned (true, db1) /\
    remove_employee i db1 = Returned db.
Proof.
  intros Hi Ht. unfold add_employee, insert_employee. rewrite Hi.
  eexists. split; [reflexivity |].
  unfold remove_employee, delete_tasks_of, delete_employee. simpl.
  destruct db as [es ts]. simpl in *. do 2 f_equal.
  - apply filter_snoc_out.
    + simpl. now rewrite String.eqb_refl.
    + intros r Hr. destruct (String.eqb_spec (e_emp_id r) i) as [E | E]; auto.
      apply has_employee_false_iff in Hi. destruct Hi. simpl.
      rewrite <- E. now apply in_map.
  - apply filter_all. intros t H.
    destruct (String.eqb_spec (t_assigned_to t) i) as [E | E]; auto.
    now destruct (Ht t H).
Qed.

(** X8 on the phase-1 scenario, with the new id C. *)
Lemma add_then_remove_employee_witness :
  (has_employee "C" phase1_example = false /\
   forall t, In t (tasks phase1_example) -> t_assigned_to t <> "C"%string) /\
  exists db1,
    add_employee 9 "C" phase1_example = Returned (true, db1) /\
    remove_employee "C" db1 = Returned phase1_example.
Proof.
  assert (H1 : has_employee "C" phase1_example = false) by reflexivity.
  assert (H2 : forall t, In t (tasks phase1_example) ->
                         t_assigned_to t <> "C"%string).
  { intros t [<- | [<- | []]]; discriminate. }
  split; [auto |].
  exact (add_then_remove_employee 9 "C" phase1_example H1 H2).
Defined.

(** X9. Two removals can be made in either order: the database that
    results is the same. *)
Theorem remove_employee_commutes (i j : string) (db : Database) :
  (db1 <- remove_employee i db ;; remove_employee j db1)
  = (db1 <- remove_employee j db ;; remove_employee i db1).
Proof.
  unfold remove_employee, delete_tasks_of, delete_employee. simpl.
  do 2 f_equal; apply filter_comm.
Qed.

End Writes.

(** ** [next_free_time] is the workload *)

Lemma apply_op_keeps_next_free_time (o : op) (db : Database) :
  (forall r, In r (employees db) -> e_next_free_time r = e_current_workload r) ->
  forall r, In r (employees (apply_op o db)) ->
            e_next_free_time r = e_current_workload r.
Proof.
  intros H. destruct o as [now i | now i d dur a | i |]; simpl.
  - unfold DatabaseManager.add_employee, insert_employee.
    destruct (has_employee i db); simpl; auto.
    intros r Hr. apply in_app_or in Hr. destruct Hr as [Hr | [<- | []]]; auto.
  - unfold DatabaseManager.add_task, insert_task.
    destruct (has_task i db); simpl; auto.
    intros r Hr. apply in_map_iff in Hr. destruct Hr as (r0 & <- & H0).
    destruct (String.eqb (e_emp_id r0) a); simpl; auto.
  - intros r Hr. apply filter_In in Hr. now apply H.
  - intros r [].
Qed.

Lemma run_keeps_next_free_time (ops : list op) :
  forall r, In r (employees (run ops init_database)) ->
            e_next_free_time r = e_current_workload r.
Proof.
  unfold run. rewrite <- fold_left_rev_right.
  induction (List.rev ops) as [| o l IH]; simpl.
  - intros r [].
  - now apply apply_op_keeps_next_free_time.
Qed.

(** X10. In every store reached from the empty one, each employee row has
    [next_free_time] equal to [current_workload]: the two columns are
    written together and with the same value. *)
Theorem next_free_time_is_workload (ops : list op) :
  forall r, In r (employees (run ops init_database)) ->
            e_next_free_time r = e_current_workload r.
Proof. exact (run_keeps_next_free_time ops). Qed.

(** X10 on the example sequence. *)
Lemma next_free_time_is_workload_witness :
  In (mkEmployeeRow "A" (0 + 2 + 3) (0 + 2 + 3) 0)
     (employees (run bookkeeping_example init_database)) /\
  0 + 2 + 3 = 0 + 2 + 3.
Proof.
  assert (H : In (mkEmployeeRow "A" (0 + 2 + 3) (0 + 2 + 3) 0)
                 (employees (run bookkeeping_example init_database)))
    by (left; reflexivity).
  split; [exact H |].
  exact (next_free_time_is_workload bookkeeping_example _ H).
Defined.

(** * More of the policy *)

Section PolicyMore.

Import DatabaseManager TaskScheduler.



(** X12 on the phase-1 scenario with its two rows exchanged. *)
Lemma find_best_employee_order_irrelevant_witness :
  Permutation (employees phase1_example) (employees phase1_swapped) /\
  find_best_employee phase1_example 3 = find_best_employee phase1_swapped 3.
Proof.
  assert (H : Permutation (employees phase1_example)
                          (employees phase1_swapped))
    by apply Permutation_rev.
  split; [exact H |].
  exact (find_best_employee_order_irrelevant
           phase1_example phase1_swapped 3 H).
Defined.

(** X14. In a store reached from the empty one, when nobody has room for
    the task, [find_best_employee] returns the employee with the least
    [current_workload], the smaller id winning a tie: the second phase
    ranks as the first one does. *)
Theorem overflow_picks_least_loaded (ops : list op) (d : Q) :
  get_all_employees (run ops init_database) <> [] ->
  (forall e, In e (get_all_employees (run ops init_database)) ->
             ~ d <= available_hours e) ->
  exists e,
    In e (get_all_employees (run ops init_database)) /\
    find_best_employee (run ops init_database) d
    = Returned (Some (emp_id e)) /\
    forall e', In e' (get_all_employees (run ops init_database)) ->
               key_le (current_workload e, emp_id e)
                      (current_workload e', emp_id e').
Proof.
  intros Hne Hnone.
  assert (Same : forall e, In e (get_all_employees (run ops init_database)) ->
                           next_free_time e = current_workload e).
  { intros e He. unfold get_all_employees in He. apply in_map_iff in He.
    destruct He as (r & <- & Hr). simpl.
    exact (run_keeps_next_free_time ops r Hr). }
  rewrite (find_best_employee_overflow_eq _ d Hne
             (available_employees_nil _ _ Hnone)).
  assert (Hn : next_free_times (get_all_employees (run ops init_database))
               <> []).
  { unfold next_free_times.
    destruct (get_all_employees (run ops init_database));
      [congruence | discriminate]. }
  destruct (first_id_sort _ Hn) as (p & Hp & Hmin & Hret).
  apply in_next_free_times in Hp. destruct Hp as (e & He & ->).
  exists e. repeat split; auto.
  intros e' He'. rewrite <- (Same e He), <- (Same e' He').
  apply Hmin. apply in_next_free_times. eauto.
Qed.

(** X14 on the phase-2 scenario. *)
Lemma overflow_picks_least_loaded_witness :
  (get_all_employees phase2_example <> [] /\
   forall e, In e (get_all_employees phase2_example) ->
             ~ 1 <= available_hours e) /\
  exists e,
    In e (get_all_employees phase2_example) /\
    find_best_employee phase2_example 1 = Returned (Some (emp_id e)) /\
    forall e', In e' (get_all_employees phase2_example) ->
               key_le (current_workload e, emp_id e)
                      (current_workload e', emp_id e').
Proof.
  assert (Hne : get_all_employees phase2_example <> []) by discriminate.
  assert (Hnone : forall e, In e (get_all_employees phase2_example) ->
                            ~ 1 <= available_hours e).
  { intros e [<- | [<- | []]]; simpl; unfold Qle; simpl; lia. }
  split; [auto |].
  exact (overflow_picks_least_loaded
           [AddEmployee 0 "A"; AddEmployee 0 "B";
            AddTask 1 "TASK_001" "a full day" 9 "A";
            AddTask 2 "TASK_002" "a full day" 9 "B"] 1 Hne Hnone).
Defined.

End PolicyMore.

(** * The pages *)

(** ** Task ids made from a count *)

Lemma digits_value_zeros (k : nat) (s : string) :
  digits_value (String.append (zeros k) s) = digits_value s.
Proof.
  unfold digits_value. induction k as [| k IH]; simpl; auto.
  destruct (DecimalString.NilEmpty.uint_of_string (String.append (zeros k) s))
    as [u |] eqn:E;
    destruct (DecimalString.NilEmpty.uint_of_string s) as [v |] eqn:F;
    simpl in *; try discriminate; auto.
Qed.

Lemma digits_value_format (n : nat) : digits_value (format_03d n) = Some n.
Proof.
  unfold format_03d. rewrite digits_value_zeros. unfold digits_value.
  rewrite DecimalString.NilEmpty.usu. simpl.
  now rewrite DecimalNat.Unsigned.of_to.
Qed.

Lemma task_label_injective (n m : nat) : task_label n = task_label m -> n = m.
Proof.
  unfold task_label. simpl. intros H. injection H as H.
  assert (E : digits_value (format_03d n) = digits_value (format_03d m))
    by now rewrite H.
  rewrite !digits_value_format in E. now injection E.
Qed.

(** X16. The digits of a task id read back as the count they were made
    from, so two different counts never give the same task id. *)
Theorem task_ids_of_different_counts_differ (n m : nat) :
  n <> m ->
  task_label n <> task_label m /\
  digits_value (format_03d n) = Some n /\
  digits_value (format_03d m) = Some m.
Proof.
  intros Hnm. split; [| split]; try apply digits_value_format.
  intros E. apply Hnm. now apply task_label_injective.
Qed.

(** X16 on the counts 9 and 1000. *)
Lemma task_ids_of_different_counts_differ_witness :
  9%nat <> 1000%nat /\
  task_label 9 = "TASK_009"%string /\
  task_label 1000 = "TASK_1000"%string /\
  task_label 9 <> task_label 1000.
Proof.
  assert (H : 9%nat <> 1000%nat) by lia.
  split; [exact H |]. split; [reflexivity |]. split; [reflexivity |].
  exact (proj1 (task_ids_of_different_counts_differ 9 1000 H)).
Defined.

Lemma next_task_id_label (db : Database) :
  next_task_id db = task_label (List.length (tasks db) + 1).
Proof.
  unfold next_task_id, task_label, DatabaseManager.get_all_tasks.
  rewrite length_map.
  now rewrite <- (Permutation_length (CreatedDescSort.Permuted_sort (tasks db))).
Qed.

(** ** [get_task_assignments] *)

(** A bare column name that two tables of the FROM clause have does not
    resolve, wherever it stands in the statement. *)
Lemma bare_shared_column_fails (cs : list column_ref) (name : string) :
  In (Bare name) cs ->
  existsb (String.eqb name) employees_columns = true ->
  existsb (String.eqb name) tasks_columns = true ->
  exists msg, prepare from_employees_join_tasks cs = OperationalError msg.
Proof.
  intros Hin He Ht. induction cs as [| c cs IH]; [destruct Hin |].
  cbn [prepare]. destruct Hin as [-> | Hin].
  - unfold resolve, tables_with, from_employees_join_tasks.
    cbn [filter snd]. rewrite He, Ht. eauto.
  - destruct (resolve from_employees_join_tasks c); eauto.
    destruct (IH Hin) as (msg & ->). eauto.
Qed.

(** X20. [get_task_assignments] raises [sqlite3.OperationalError] on every
    database: its SELECT names the column created_at without a table, and
    both joined tables have a column of that name, so the statement is
    refused before any row is read.  The SELECTs of [get_all_employees] and
    [get_all_tasks], each on one table, are accepted. *)
Theorem get_task_assignments_is_refused (db : Database) :
  get_task_assignments db
  = OperationalError "ambiguous column name: created_at" /\
  (exists l, prepare from_employees get_all_employees_columns = Prepared l) /\
  (exists l, prepare from_tasks get_all_tasks_columns = Prepared l).
Proof.
  split; [reflexivity |]. split; eexists; reflexivity.
Qed.

(** * The store with doubles and with the write lock *)

(** ** What a REAL column does to a sum *)

Lemma float_zero_cases (d : PrimFloat.float) :
  PrimFloat.eqb d PrimFloat.zero = true ->
  d = PrimFloat.zero \/ d = PrimFloat.neg_zero.
Proof.
  rewrite FloatAxioms.eqb_spec.
  change (FloatOps.Prim2SF PrimFloat.zero) with (SpecFloat.S754_zero false).
  destruct (FloatOps.Prim2SF d) as [[|] | [|] | | s m e] eqn:E;
    cbn; try discriminate; try (destruct s; discriminate); intros _.
  - right. apply FloatAxioms.Prim2SF_inj. now rewrite E.
  - left. apply FloatAxioms.Prim2SF_inj. now rewrite E.
Qed.

Lemma real_affinity_add_neg_zero (w : PrimFloat.float) :
  Doubles.real_affinity (PrimFloat.add w PrimFloat.neg_zero)
  = Doubles.real_affinity (PrimFloat.add w PrimFloat.zero).
Proof.
  unfold Doubles.real_affinity.
  assert (A : FloatOps.Prim2SF (PrimFloat.add w PrimFloat.neg_zero)
              = SpecFloat.SFadd FloatOps.prec FloatOps.emax
                  (FloatOps.Prim2SF w) (SpecFloat.S754_zero true))
    by apply FloatAxioms.add_spec.
  assert (B : FloatOps.Prim2SF (PrimFloat.add w PrimFloat.zero)
              = SpecFloat.SFadd FloatOps.prec FloatOps.emax
                  (FloatOps.Prim2SF w) (SpecFloat.S754_zero false))
    by apply FloatAxioms.add_spec.
  assert (E : PrimFloat.eqb (PrimFloat.add w PrimFloat.neg_zero) PrimFloat.zero
              = PrimFloat.eqb (PrimFloat.add w PrimFloat.zero) PrimFloat.zero).
  { rewrite !FloatAxioms.eqb_spec, A, B.
    destruct (FloatOps.Prim2SF w) as [[|] | [|] | | s m e]; reflexivity. }
  rewrite E.
  destruct (PrimFloat.eqb (PrimFloat.add w PrimFloat.zero) PrimFloat.zero)
    eqn:H; auto.
  apply FloatAxioms.Prim2SF_inj. rewrite A, B.
  rewrite FloatAxioms.eqb_spec, B in H.
  destruct (FloatOps.Prim2SF w) as [[|] | [|] | | s m e];
    try reflexivity; discriminate.
Qed.

(** Adding a duration and adding what the column gives back for it leave
    the same number in the column. *)
Lemma real_affinity_add (w d : PrimFloat.float) :
  Doubles.real_affinity (PrimFloat.add w (Doubles.real_affinity d))
  = Doubles.real_affinity (PrimFloat.add w d).
Proof.
  unfold Doubles.real_affinity at 2.
  destruct (PrimFloat.eqb d PrimFloat.zero) eqn:E; auto.
  destruct (float_zero_cases d E) as [-> | ->]; auto.
  symmetry. apply real_affinity_add_neg_zero.
Qed.

(** ** Lookups *)

Lemma doubles_has_employee_iff (i : string) (db : Doubles.Database) :
  Doubles.has_employee i db = true <->
  In i (map Doubles.e_emp_id (Doubles.employees db)).
Proof.
  unfold Doubles.has_employee. rewrite existsb_exists, in_map_iff. split.
  - intros (r & Hr & E). apply String.eqb_eq in E. eauto.
  - intros (r & E & Hr). exists r. split; auto. now apply String.eqb_eq.
Qed.




Lemma doubles_update_keeps_ids (dur1 dur2 : PrimFloat.float) (a : string)
    (db db' : Doubles.Database) :
  Doubles.update_workload dur1 dur2 a db = Returned db' ->
  map Doubles.e_emp_id (Doubles.employees db')
  = map Doubles.e_emp_id (Doubles.employees db) /\
  Doubles.tasks db' = Doubles.tasks db.
Proof.
  unfold Doubles.update_workload. intros E. injection E as <-. simpl.
  split; auto. rewrite map_map. apply map_ext. intros r.
  now destruct (String.eqb (Doubles.e_emp_id r) a).
Qed.

(** ** What a call leaves on disk *)

(** A call writes what its statements return, and only when no lock is
    pending; otherwise the disk is as before. *)
Lemma write_cases {D : Type} (statements : D -> outcome D) (s : Connected D) :
  (write_lock s = true /\ write statements s = (Threw DatabaseIsLocked, s)) \/
  (write_lock s = false /\
   exists e, statements (on_disk s) = Raised e /\
             write statements s
             = (Threw (Python e), mkConnected (on_disk s) true)) \/
  (write_lock s = false /\
   exists d', statements (on_disk s) = Returned d' /\
              write statements s = (Replied tt, mkConnected d' false)).
Proof.
  unfold write. destruct (write_lock s); [left; auto | right].
  destruct (statements (on_disk s)) as [d' | e]; [right | left]; eauto.
Qed.

Lemma write_on_disk {D : Type} (statements : D -> outcome D) (s : Connected D) :
  on_disk (snd (write statements s)) = on_disk s \/
  statements (on_disk s) = Returned (on_disk (snd (write statements s))).
Proof.
  destruct (write_cases statements s)
    as [[_ ->] | [(_ & e & _ & ->) | (_ & d' & E & ->)]]; simpl; auto.
Qed.

Lemma except_integrity_error_snd {D : Type} (r : reply unit * Connected D) :
  snd (except_integrity_error r) = snd r.
Proof. destruct r as [[u | [[] |]] s']; reflexivity. Qed.

(** The disk after a call is the disk before it, or what the statements of
    the call return on it. *)
Lemma doubles_apply_op_on_disk (o : Doubles.op) (s : Connected Doubles.Database) :
  on_disk (Doubles.apply_op o s) = on_disk s \/
  match o with
  | Doubles.AddEmployee now i =>
      Doubles.insert_employee now i (on_disk s)
      = Returned (on_disk (Doubles.apply_op o s))
  | Doubles.AddTask now i d dur a =>
      (db1 <- Doubles.insert_task now i d dur a (on_disk s) ;;
       Doubles.update_workload dur dur a db1)
      = Returned (on_disk (Doubles.apply_op o s))
  | Doubles.RemoveEmployee i =>
      (db1 <- Doubles.delete_tasks_of i (on_disk s) ;;
       Doubles.delete_employee i db1)
      = Returned (on_disk (Doubles.apply_op o s))
  | Doubles.ResetAll =>
      Doubles.delete_everything (on_disk s)
      = Returned (on_disk (Doubles.apply_op o s))
  | Doubles.CollectorRuns => False
  end.
Proof.
  destruct o as [now i | now i d dur a | i | |]; simpl.
  - unfold Doubles.add_employee. rewrite except_integrity_error_snd.
    apply write_on_disk.
  - apply (write_on_disk
             (fun db => db1 <- Doubles.insert_task now i d dur a db ;;
                        Doubles.update_workload dur dur a db1)).
  - apply (write_on_disk
             (fun db => db1 <- Doubles.delete_tasks_of i db ;;
                        Doubles.delete_employee i db1)).
  - apply write_on_disk.
  - now left.
Qed.

(** ** Booked hours *)

Lemma booked_hours_snoc (i : string) (ts : list Doubles.TaskRow)
    (t : Doubles.TaskRow) :
  Doubles.booked_hours i (ts ++ [t])
  = if String.eqb (Doubles.t_assigned_to t) i
    then Doubles.real_affinity
           (PrimFloat.add (Doubles.booked_hours i ts) (Doubles.t_duration t))
    else Doubles.booked_hours i ts.
Proof.
  unfold Doubles.booked_hours, Doubles.durations_of.
  rewrite filter_app. simpl.
  destruct (String.eqb (Doubles.t_assigned_to t) i).
  - now rewrite map_app, fold_left_app.
  - now rewrite app_nil_r.
Qed.

Lemma booked_hours_unreferenced (i : string) (ts : list Doubles.TaskRow) :
  (forall t, In t ts -> Doubles.t_assigned_to t <> i) ->
  Doubles.booked_hours i ts = PrimFloat.zero.
Proof.
  intros H. unfold Doubles.booked_hours, Doubles.durations_of.
  rewrite filter_none; auto.
  intros t Ht. destruct (String.eqb_spec (Doubles.t_assigned_to t) i); auto.
  now destruct (H t Ht).
Qed.

Lemma booked_hours_after_delete (i j : string) (ts : list Doubles.TaskRow) :
  i <> j ->
  Doubles.booked_hours i
    (filter (fun r => negb (String.eqb (Doubles.t_assigned_to r) j)) ts)
  = Doubles.booked_hours i ts.
Proof.
  intros Hij. unfold Doubles.booked_hours, Doubles.durations_of. do 2 f_equal.
  induction ts as [| r ts IH]; simpl; auto.
  destruct (String.eqb_spec (Doubles.t_assigned_to r) j) as [Ej | Ej]; simpl.
  - destruct (String.eqb_spec (Doubles.t_assigned_to r) i) as [Ei | Ei]; auto.
    congruence.
  - destruct (String.eqb (Doubles.t_assigned_to r) i); simpl; now rewrite IH.
Qed.

(** ** The statements keep the books *)

Lemma doubles_insert_employee_keeps (now : nat) (i : string)
    (db db' : Doubles.Database) :
  Doubles.insert_employee now i db = Returned db' ->
  Doubles.workload_matches db /\ Doubles.references_exist db ->
  Doubles.workload_matches db' /\ Doubles.references_exist db'.
Proof.
  unfold Doubles.insert_employee.
  destruct (Doubles.has_employee i db) eqn:E; [discriminate |].
  intros H [HW HR]. injection H as <-. split.
  - intros r Hr. simpl in *. apply in_app_or in Hr.
    destruct Hr as [Hr | [<- | []]]; auto. simpl.
    rewrite booked_hours_unreferenced; auto.
    intros t Ht Ea. specialize (HR t Ht). congruence.
  - intros t Ht. simpl in *. specialize (HR t Ht).
    unfold Doubles.has_employee in *. simpl.
    rewrite existsb_app, HR. reflexivity.
Qed.

Lemma doubles_add_task_keeps (now : nat) (i d : string) (dur : PrimFloat.float)
    (a : string) (db db' : Doubles.Database) :
  (db1 <- Doubles.insert_task now i d dur a db ;;
   Doubles.update_workload dur dur a db1) = Returned db' ->
  Doubles.has_employee a db = true ->
  Doubles.workload_matches db /\ Doubles.references_exist db ->
  Doubles.workload_matches db' /\ Doubles.references_exist db'.
Proof.
  unfold Doubles.insert_task.
  destruct (PrimFloat.is_nan dur); [discriminate |].
  destruct (Doubles.has_task i db); [discriminate |].
  simpl. intros H Ha [HW HR]. injection H as <-. split.
  - intros r' Hr'. simpl in *. apply in_map_iff in Hr'.
    destruct Hr' as (r & <- & Hr). specialize (HW r Hr).
    rewrite booked_hours_snoc. simpl.
    destruct (String.eqb_spec (Doubles.e_emp_id r) a) as [Ea | Ea]; simpl.
    + rewrite <- Ea, String.eqb_refl, real_affinity_add, <- HW. reflexivity.
    + destruct (String.eqb_spec a (Doubles.e_emp_id r)) as [Ea' | Ea'];
        [congruence | exact HW].
  - assert (Ids : forall x db0,
               Doubles.employees db0
               = map (fun r =>
                        if String.eqb (Doubles.e_emp_id r) a
                        then {| Doubles.e_emp_id := Doubles.e_emp_id r;
                                Doubles.e_current_workload :=
                                  Doubles.real_affinity
                                    (PrimFloat.add
                                       (Doubles.e_current_workload r) dur);
                                Doubles.e_next_free_time :=
                                  Doubles.real_affinity
                                    (PrimFloat.add
                                       (Doubles.e_current_workload r) dur);
                                Doubles.e_created_at := Doubles.e_created_at r |}
                        else r) (Doubles.employees db) ->
               Doubles.has_employee x db = true ->
               Doubles.has_employee x db0 = true).
    { intros x db0 E Hx. apply doubles_has_employee_iff. rewrite E.
      rewrite map_map. apply doubles_has_employee_iff in Hx.
      erewrite map_ext; [exact Hx |]. intros r. simpl.
      now destruct (String.eqb (Doubles.e_emp_id r) a). }
    intros t Ht. simpl in Ht. apply in_app_or in Ht.
    destruct Ht as [Ht | [<- | []]]; (eapply Ids; [reflexivity |]); auto.
Qed.

Lemma doubles_remove_keeps (i : string) (db db' : Doubles.Database) :
  (db1 <- Doubles.delete_tasks_of i db ;; Doubles.delete_employee i db1)
  = Returned db' ->
  Doubles.workload_matches db /\ Doubles.references_exist db ->
  Doubles.workload_matches db' /\ Doubles.references_exist db'.
Proof.
  simpl. unfold Doubles.delete_employee. simpl.
  intros H [HW HR]. injection H as <-. split.
  - intros r Hr. simpl in *. apply filter_In in Hr. destruct Hr as [Hr Hi].
    rewrite booked_hours_after_delete; auto.
    intros E. rewrite E, String.eqb_refl in Hi. discriminate.
  - intros t Ht. simpl in *. apply filter_In in Ht. destruct Ht as [Ht Hi].
    specialize (HR t Ht). apply doubles_has_employee_iff in HR.
    apply doubles_has_employee_iff. simpl. apply in_map_iff in HR.
    destruct HR as (r & E & Hr). apply in_map_iff. exists r. split; auto.
    apply filter_In. split; auto. now rewrite E.
Qed.

Lemma doubles_apply_op_keeps (o : Doubles.op) (s : Connected Doubles.Database) :
  Doubles.op_refs_ok o s = true ->
  Doubles.workload_matches (on_disk s) /\
  Doubles.references_exist (on_disk s) ->
  Doubles.workload_matches (on_disk (Doubles.apply_op o s)) /\
  Doubles.references_exist (on_disk (Doubles.apply_op o s)).
Proof.
  intros Hok Hinv.
  destruct (doubles_apply_op_on_disk o s) as [-> | H]; auto.
  destruct o as [now i | now i d dur a | i | |].
  - eapply doubles_insert_employee_keeps; eauto.
  - eapply doubles_add_task_keeps; eauto.
  - eapply doubles_remove_keeps; eauto.
  - unfold Doubles.delete_everything in H. injection H as H.
    cbn [Doubles.apply_op]. rewrite <- H. split; intros r [].
  - destruct H.
Qed.

Lemma doubles_run_keeps (ops : list Doubles.op) :
  forall s,
    Doubles.refs_ok ops s = true ->
    Doubles.workload_matches (on_disk s) /\
    Doubles.references_exist (on_disk s) ->
    Doubles.workload_matches (on_disk (Doubles.run ops s)) /\
    Doubles.references_exist (on_disk (Doubles.run ops s)).
Proof.
  induction ops as [| o ops IH]; intros s Hok Hinv; simpl in *; auto.
  apply andb_true_iff in Hok. destruct Hok as [Ho Hrest].
  apply IH; auto. now apply doubles_apply_op_keeps.
Qed.

(** C1. Start from the empty store and make any sequence of calls to
    [add_employee], [add_task], [remove_employee] and [reset_all_data],
    failing ones included and the collector running at any point, in which
    every [add_task] names an employee that exists at that moment.  In the
    store that results, the [current_workload] of every employee row is the
    sum of [duration] over the task rows assigned to that employee, taken
    in double arithmetic from 0, oldest task first. *)
Theorem workload_is_sum_oldest_first (ops : list Doubles.op) :
  Doubles.refs_ok ops Doubles.init_database = true ->
  forall r,
    In r (Doubles.employees (on_disk (Doubles.run ops Doubles.init_database))) ->
    Doubles.e_current_workload r
    = Doubles.booked_hours (Doubles.e_emp_id r)
        (Doubles.tasks (on_disk (Doubles.run ops Doubles.init_database))).
Proof.
  intros Hok.
  apply (doubles_run_keeps ops Doubles.init_database Hok).
  split; intros r [].
Qed.

(** C1 on a sequence with refused and failing calls in it. *)
Lemma workload_is_sum_oldest_first_witness :
  Doubles.refs_ok Doubles.bookkeeping_example Doubles.init_database = true /\
  forall r,
    In r (Doubles.employees
            (on_disk (Doubles.run Doubles.bookkeeping_example
                        Doubles.init_database))) ->
    Doubles.e_current_workload r
    = Doubles.booked_hours (Doubles.e_emp_id r)
        (Doubles.tasks
           (on_disk (Doubles.run Doubles.bookkeeping_example
                       Doubles.init_database))).
Proof.
  split; [reflexivity |].
  apply (workload_is_sum_oldest_first Doubles.bookkeeping_example).
  reflexivity.
Defined.

(** C1 as first written fails.  After 0.1, 0.2 and 0.3 hours are booked on
    one employee, the workload is 0.6000000000000001; the sum of the three
    durations written [d1 + (d2 + (d3 + 0))], and their sum taken newest
    first, are both 0.6. *)
Lemma workload_is_not_the_sum_in_another_order :
  Doubles.refs_ok Doubles.rounding_example Doubles.init_database = true /\
  exists r,
    In r (Doubles.employees
            (on_disk (Doubles.run Doubles.rounding_example
                        Doubles.init_database))) /\
    Doubles.e_current_workload r = Doubles.six_tenths_and_an_ulp /\
    Doubles.hours_right_to_left (Doubles.e_emp_id r)
      (Doubles.tasks
         (on_disk (Doubles.run Doubles.rounding_example
                     Doubles.init_database)))
    = Doubles.six_tenths /\
    Doubles.hours_newest_first (Doubles.e_emp_id r)
      (Doubles.tasks
         (on_disk (Doubles.run Doubles.rounding_example
                     Doubles.init_database)))
    = Doubles.six_tenths /\
    Doubles.e_current_workload r
    <> Doubles.hours_right_to_left (Doubles.e_emp_id r)
         (Doubles.tasks
            (on_disk (Doubles.run Doubles.rounding_example
                        Doubles.init_database))).
Proof.
  split; [reflexivity |].
  exists (Doubles.mkEmployeeRow "A" Doubles.six_tenths_and_an_ulp
            Doubles.six_tenths_and_an_ulp 0).
  split; [left; reflexivity |].
  split; [reflexivity |]. split; [reflexivity |]. split; [reflexivity |].
  intros H.
  assert (E : PrimFloat.eqb Doubles.six_tenths_and_an_ulp Doubles.six_tenths
              = false) by reflexivity.
  assert (F : PrimFloat.eqb Doubles.six_tenths Doubles.six_tenths = true)
    by reflexivity.
  change (Doubles.six_tenths_and_an_ulp = Doubles.six_tenths) in H.
  rewrite H in E. congruence.
Qed.

(** ** One call at a time *)



(** X6. On a store where no connection has been left open, [add_task]
    raises [IntegrityError] exactly when the duration is NaN (which SQLite
    takes as NULL, against NOT NULL) or the task id is already a key; it
    then writes nothing and leaves its connection open.  Otherwise it
    returns: the new row is the last of the [tasks] table, the rows before
    it are as they were, and the employee ids are the same as before. *)
Theorem add_task_raises_iff_refused_row (now : nat) (i d : string)
    (dur : PrimFloat.float) (a : string) (s : Connected Doubles.Database) :
  write_lock s = false ->
  (fst (Doubles.add_task now i d dur a s) = Threw (Python IntegrityError) <->
   PrimFloat.is_nan dur = true \/ Doubles.has_task i (on_disk s) = true)
  /\ (PrimFloat.is_nan dur = true \/ Doubles.has_task i (on_disk s) = true ->
      Doubles.add_task now i d dur a s
      = (Threw (Python IntegrityError), mkConnected (on_disk s) true))
  /\ (PrimFloat.is_nan dur = false ->
      Doubles.has_task i (on_disk s) = false ->
      exists db',
        Doubles.add_task now i d dur a s
        = (Replied tt, mkConnected db' false) /\
        Doubles.tasks db'
        = Doubles.tasks (on_disk s)
          ++ [Doubles.mkTaskRow i d (Doubles.real_affinity dur) a now] /\
        map Doubles.e_emp_id (Doubles.employees db')
        = map Doubles.e_emp_id (Doubles.employees (on_disk s))).
Proof.
  intros Hfree. unfold Doubles.add_task, write. rewrite Hfree.
  unfold Doubles.insert_task.
  destruct (PrimFloat.is_nan dur) eqn:En; simpl.
  - split; [split; auto |]. split; [auto | discriminate].
  - destruct (Doubles.has_task i (on_disk s)) eqn:Et; simpl.
    + split; [split; auto |]. split; [auto | discriminate].
    + split; [split; [discriminate | intros [H | H]; discriminate] |].
      split; [intros [H | H]; discriminate |].
      intros _ _. eexists. split; [reflexivity |]. simpl. split; auto.
      rewrite map_map. apply map_ext. intros r.
      now destruct (String.eqb (Doubles.e_emp_id r) a).
Qed.

(** X6 after the three bookings on A: TASK_001 is taken, TASK_004 is
    new. *)
Lemma add_task_raises_iff_refused_row_witness :
  (write_lock Doubles.rounding_store = false /\
   Doubles.has_task "TASK_001" (on_disk Doubles.rounding_store) = true /\
   Doubles.has_task "TASK_004" (on_disk Doubles.rounding_store) = false /\
   PrimFloat.is_nan PrimFloat.nan = true /\
   PrimFloat.is_nan Doubles.tenth = false) /\
  Doubles.add_task 4 "TASK_001" "again" Doubles.tenth "A" Doubles.rounding_store
  = (Threw (Python IntegrityError), mkConnected (on_disk Doubles.rounding_store) true) /\
  Doubles.add_task 4 "TASK_004" "not a number" PrimFloat.nan "A" Doubles.rounding_store
  = (Threw (Python IntegrityError), mkConnected (on_disk Doubles.rounding_store) true) /\
  exists db',
    Doubles.add_task 4 "TASK_004" "new" Doubles.tenth "A" Doubles.rounding_store
    = (Replied tt, mkConnected db' false) /\
    Doubles.tasks db'
    = Doubles.tasks (on_disk Doubles.rounding_store)
      ++ [Doubles.mkTaskRow "TASK_004" "new"
            (Doubles.real_affinity Doubles.tenth) "A" 4] /\
    map Doubles.e_emp_id (Doubles.employees db')
    = map Doubles.e_emp_id (Doubles.employees (on_disk Doubles.rounding_store)).
Proof.
  set (s := Doubles.rounding_store).
  assert (H0 : write_lock s = false) by reflexivity.
  assert (H1 : Doubles.has_task "TASK_001" (on_disk s) = true) by reflexivity.
  assert (H4 : Doubles.has_task "TASK_004" (on_disk s) = false) by reflexivity.
  assert (Hn : PrimFloat.is_nan PrimFloat.nan = true) by reflexivity.
  assert (Ht : PrimFloat.is_nan Doubles.tenth = false) by reflexivity.
  split; [auto |]. split; [| split].
  - apply (proj1 (proj2 (add_task_raises_iff_refused_row
                           4 "TASK_001" "again" Doubles.tenth "A" s H0))).
    now right.
  - apply (proj1 (proj2 (add_task_raises_iff_refused_row
                           4 "TASK_004" "not a number" PrimFloat.nan "A" s H0))).
    now left.
  - exact (proj2 (proj2 (add_task_raises_iff_refused_row
                           4 "TASK_004" "new" Doubles.tenth "A" s H0)) Ht H4).
Defined.

(** X21. While a connection left open by a failed call holds the write
    lock, every writing method raises [OperationalError: database is
    locked] and changes nothing, the lock included; once the collector has
    run, what is on disk is as before and writes go through again. *)
Theorem pending_lock_refuses_writes (s : Connected Doubles.Database) :
  write_lock s = true ->
  (forall now i, Doubles.add_employee now i s = (Threw DatabaseIsLocked, s)) /\
  (forall now i d dur a,
      Doubles.add_task now i d dur a s = (Threw DatabaseIsLocked, s)) /\
  (forall i, Doubles.remove_employee i s = (Threw DatabaseIsLocked, s)) /\
  Doubles.reset_all_data s = (Threw DatabaseIsLocked, s) /\
  on_disk (collect s) = on_disk s /\
  forall i,
    exists db',
      Doubles.remove_employee i (collect s)
      = (Replied tt, mkConnected db' false).
Proof.
  intros Hl.
  unfold Doubles.add_employee, Doubles.add_task, Doubles.remove_employee,
    Doubles.reset_all_data, write.
  rewrite Hl. simpl. repeat split; auto.
  intros i. eexists. reflexivity.
Qed.

(** X21 after a second "add A": the store is locked. *)
Lemma pending_lock_refuses_writes_witness :
  write_lock Doubles.locked_store = true /\
  Doubles.add_employee 2 "B" Doubles.locked_store
  = (Threw DatabaseIsLocked, Doubles.locked_store) /\
  Doubles.add_employee 2 "A" Doubles.locked_store
  = (Threw DatabaseIsLocked, Doubles.locked_store) /\
  fst (Doubles.add_employee 2 "B" (collect Doubles.locked_store))
  = Replied true.
Proof.
  set (s := Doubles.locked_store).
  assert (H : write_lock s = true) by reflexivity.
  split; [exact H |].
  destruct (pending_lock_refuses_writes s H) as (Hadd & _).
  split; [apply Hadd |]. split; [apply Hadd | reflexivity].
Defined.

(** * Sessions on the pages *)

(** ** What an event leaves on disk *)

Lemma snapshot_nil_iff (db : Database) :
  DatabaseManager.get_all_employees db = [] <-> employees db = [].
Proof.
  unfold DatabaseManager.get_all_employees.
  destruct (employees db); simpl; split; intros H; congruence.
Qed.

Lemma truthy_true_iff (s : string) : truthy s = true <-> s <> ""%string.
Proof.
  unfold truthy. destruct (String.eqb_spec s ""); simpl; split;
    intros H; congruence.
Qed.

Lemma existing_id_not_blank (i : string) (db : Database) :
  no_blank_employee db -> has_employee i db = true -> truthy i = true.
Proof.
  unfold no_blank_employee. intros Hb Hi. apply truthy_true_iff.
  intros ->. congruence.
Qed.

Lemma positive_duration (d : Q) : DatabaseManager.Qltb 0 d = true <-> 0 < d.
Proof.
  unfold DatabaseManager.Qltb.
  rewrite negb_true_iff, <- not_true_iff_false, Qle_bool_iff.
  split; [apply Qnot_le_lt | apply Qlt_not_le].
Qed.

(** The "Add Task" handler, once its tests have passed: the policy's
    choice, then [add_task] under the next id. *)
Lemma add_task_button_steps (now : nat) (desc : string) (d : Q)
    (s : Connected Database) :
  no_blank_employee (on_disk s) ->
  truthy desc = true -> 0 < d -> employees (on_disk s) <> [] ->
  exists e,
    TaskScheduler.find_best_employee (on_disk s) d = Returned (Some e) /\
    has_employee e (on_disk s) = true /\
    add_task_button now desc d s
    = match add_task_call now (next_task_id (on_disk s)) desc d e s with
      | (Replied _, s') =>
          (Replied
             (st_success
                (String.append "Task "
                   (String.append (next_task_id (on_disk s))
                      (String.append " assigned to "
                         (String.append e "!"))))),
           s')
      | (Threw x, s') => (Threw x, s')
      end.
Proof.
  intros Hb Hdesc Hd Hne.
  destruct (find_best_employee_returns (on_disk s) d Hne) as (e & He & Hfind).
  assert (Hex : has_employee (DatabaseManager.emp_id e) (on_disk s) = true).
  { apply has_employee_iff. unfold DatabaseManager.get_all_employees in He.
    apply in_map_iff in He. destruct He as (r & <- & Hr). simpl.
    now apply in_map. }
  exists (DatabaseManager.emp_id e).
  split; [exact Hfind |]. split; [exact Hex |].
  unfold add_task_button. rewrite Hdesc.
  rewrite (proj2 (positive_duration d) Hd). simpl.
  destruct (DatabaseManager.get_all_employees (on_disk s)) as [| x xs] eqn:Es.
  - apply snapshot_nil_iff in Es. contradiction.
  - rewrite Hfind. now rewrite (existing_id_not_blank _ (on_disk s) Hb Hex).
Qed.

(** The disk after an event is the disk before it, or the disk after one
    call of the store that names an existing employee. *)
Lemma after_event_cases (ev : event) (s : Connected Database) :
  no_blank_employee (on_disk s) ->
  on_disk (after_event ev s) = on_disk s \/
  exists o,
    on_disk (after_event ev s) = apply_op o (on_disk s) /\
    op_refs_ok o (on_disk s) = true /\
    match o with
    | AddEmployee _ i => truthy i = true
    | AddTask _ i _ _ _ => i = next_task_id (on_disk s)
    | RemoveEmployee _ => is_removal ev = true
    | ResetAll => False
    end.
Proof.
  intros Hb. destruct ev as [now i | i | now desc d |]; simpl.
  - unfold add_employee_button. destruct (truthy i) eqn:Ti; [| now left].
    unfold add_employee_call, write.
    destruct (write_lock s); [now left |].
    right. exists (AddEmployee now i). split; [| auto]. simpl.
    unfold DatabaseManager.add_employee.
    destruct (insert_employee now i (on_disk s)) as [d' | []]; reflexivity.
  - unfold remove_employee_button.
    destruct (DatabaseManager.get_all_employees (on_disk s)); [now left |].
    unfold remove_employee_call, write.
    destruct (write_lock s); [now left |].
    right. exists (RemoveEmployee i). repeat split; auto.
  - destruct (truthy desc) eqn:Td;
      [| left; unfold add_task_button; now rewrite Td].
    destruct (DatabaseManager.Qltb 0 d) eqn:Hd;
      [| left; unfold add_task_button; now rewrite Td, Hd].
    destruct (employees (on_disk s)) as [| r rs] eqn:Es.
    { left. unfold add_task_button. rewrite Td, Hd. simpl.
      unfold DatabaseManager.get_all_employees. now rewrite Es. }
    assert (Hne : employees (on_disk s) <> []) by (rewrite Es; discriminate).
    destruct (add_task_button_steps now desc d s Hb Td
                (proj1 (positive_duration d) Hd) Hne) as (e & _ & Hex & ->).
    unfold add_task_call, write. destruct (write_lock s); [now left |].
    right. exists (AddTask now (next_task_id (on_disk s)) desc d e).
    split; [| auto]. simpl.
    destruct (DatabaseManager.add_task now (next_task_id (on_disk s)) desc d e
                (on_disk s)); reflexivity.
  - now left.
Qed.

Lemma apply_op_keeps_no_blank (o : op) (db : Database) :
  match o with AddEmployee _ i => truthy i = true | _ => True end ->
  no_blank_employee db -> no_blank_employee (apply_op o db).
Proof.
  unfold no_blank_employee. intros Ho Hb.
  destruct o as [now i | now i d dur a | i |]; simpl.
  - unfold DatabaseManager.add_employee, insert_employee.
    destruct (has_employee i db); simpl; auto.
    unfold has_employee in *. simpl. rewrite existsb_app, Hb. simpl.
    apply truthy_true_iff in Ho.
    destruct (String.eqb_spec i ""); [contradiction | reflexivity].
  - unfold DatabaseManager.add_task, insert_task.
    destruct (has_task i db); simpl; auto.
    apply has_employee_false_iff. simpl. rewrite update_keeps_ids.
    now apply has_employee_false_iff.
  - apply has_employee_false_iff. simpl. intros Hin.
    apply in_map_iff in Hin. destruct Hin as (r & E & Hr).
    apply filter_In in Hr. apply has_employee_false_iff in Hb.
    apply Hb. rewrite <- E. apply in_map. tauto.
  - reflexivity.
Qed.

Lemma after_event_keeps_invariants (ev : event) (s : Connected Database) :
  no_blank_employee (on_disk s) /\ keys_unique (on_disk s) /\
  references_exist (on_disk s) ->
  no_blank_employee (on_disk (after_event ev s)) /\
  keys_unique (on_disk (after_event ev s)) /\
  references_exist (on_disk (after_event ev s)).
Proof.
  intros (Hb & Hk & HR).
  destruct (after_event_cases ev s Hb) as [-> | (o & -> & Hok & Ho)]; auto.
  split; [| split].
  - apply apply_op_keeps_no_blank; auto. destruct o; auto.
  - now apply apply_op_keys_unique.
  - destruct o as [now i | now i d dur a | i |]; simpl.
    + unfold DatabaseManager.add_employee, insert_employee.
      destruct (has_employee i (on_disk s)); simpl; auto.
      intros t Ht. simpl in *. specialize (HR t Ht).
      unfold has_employee in *. simpl. rewrite existsb_app, HR. reflexivity.
    + unfold DatabaseManager.add_task, insert_task.
      destruct (has_task i (on_disk s)); simpl; auto.
      assert (Ids : forall x,
                 has_employee x (on_disk s) = true ->
                 In x (map e_emp_id
                         (map (fun r =>
                                 if String.eqb (e_emp_id r) a
                                 then {| e_emp_id := e_emp_id r;
                                         e_current_workload :=
                                           e_current_workload r + dur;
                                         e_next_free_time :=
                                           e_current_workload r + dur;
                                         e_created_at := e_created_at r |}
                                 else r) (employees (on_disk s))))).
      { intros x Hx. rewrite update_keeps_ids. now apply has_employee_iff. }
      intros t Ht. apply has_employee_iff. simpl in *.
      apply in_app_or in Ht. destruct Ht as [Ht | [<- | []]]; apply Ids; auto.
    + intros t Ht. simpl in *. apply filter_In in Ht. destruct Ht as [Ht Hi].
      specialize (HR t Ht). apply has_employee_iff in HR.
      apply has_employee_iff. simpl. apply in_map_iff in HR.
      destruct HR as (r & E & Hr). apply in_map_iff. exists r. split; auto.
      apply filter_In. split; auto. now rewrite E.
    + intros t [].
Qed.

Lemma session_keeps_invariants (es : list event) :
  forall s,
    no_blank_employee (on_disk s) /\ keys_unique (on_disk s) /\
    references_exist (on_disk s) ->
    no_blank_employee (on_disk (session es s)) /\
    keys_unique (on_disk (session es s)) /\
    references_exist (on_disk (session es s)).
Proof.
  induction es as [| ev es IH]; intros s H; simpl; auto.
  apply IH. now apply after_event_keeps_invariants.
Qed.

Lemma empty_store_invariants :
  no_blank_employee (on_disk empty_store) /\
  keys_unique (on_disk empty_store) /\
  references_exist (on_disk empty_store).
Proof.
  split; [reflexivity |]. split; [split; constructor | intros r []].
Qed.

(** X17. Whatever is clicked on the pages, and whenever the collector
    runs, starting from the empty database: keys stay unique, every task
    row names an employee row, and no employee has the empty id.  The
    handlers need no care from the user for this: "Add Task" only ever
    books on an employee the policy has just read from the table. *)
Theorem session_keeps_store_consistent (es : list event) :
  NoDup (map e_emp_id (employees (on_disk (session es empty_store)))) /\
  NoDup (map t_task_id (tasks (on_disk (session es empty_store)))) /\
  (forall t, In t (tasks (on_disk (session es empty_store))) ->
             has_employee (t_assigned_to t) (on_disk (session es empty_store))
             = true) /\
  has_employee "" (on_disk (session es empty_store)) = false.
Proof.
  destruct (session_keeps_invariants es empty_store empty_store_invariants)
    as (Hb & [Hk1 Hk2] & HR).
  repeat split; auto.
Qed.

(** X18. In a session, "Add Task" with a description and a positive
    duration, on a table with at least one employee, never shows an error
    message.  The policy names an employee of the table; then, if a
    connection left open by an earlier failure holds the lock, the handler
    raises [OperationalError: database is locked] and nothing changes; if
    not, and the id made from the number of tasks is already taken, it
    raises [IntegrityError], writes nothing and leaves its own connection
    open; otherwise it reports success and the task is booked on that
    employee. *)
Theorem add_task_button_outcomes (es : list event) (now : nat)
    (desc : string) (d : Q) :
  truthy desc = true -> 0 < d ->
  employees (on_disk (session es empty_store)) <> [] ->
  exists e,
    TaskScheduler.find_best_employee (on_disk (session es empty_store)) d
    = Returned (Some e) /\
    has_employee e (on_disk (session es empty_store)) = true /\
    (write_lock (session es empty_store) = true ->
     add_task_button now desc d (session es empty_store)
     = (Threw DatabaseIsLocked, session es empty_store)) /\
    (write_lock (session es empty_store) = false ->
     has_task (next_task_id (on_disk (session es empty_store)))
              (on_disk (session es empty_store)) = true ->
     add_task_button now desc d (session es empty_store)
     = (Threw (Python IntegrityError),
        mkConnected (on_disk (session es empty_store)) true)) /\
    (write_lock (session es empty_store) = false ->
     has_task (next_task_id (on_disk (session es empty_store)))
              (on_disk (session es empty_store)) = false ->
     exists msg db',
       add_task_button now desc d (session es empty_store)
       = (Replied (st_success msg), mkConnected db' false) /\
       DatabaseManager.add_task now
         (next_task_id (on_disk (session es empty_store))) desc d e
         (on_disk (session es empty_store)) = Returned db').
Proof.
  intros Hdesc Hd Hne.
  destruct (session_keeps_invariants es empty_store empty_store_invariants)
    as (Hb & _).
  set (s := session es empty_store) in *.
  destruct (add_task_button_steps now desc d s Hb Hdesc Hd Hne)
    as (e & Hfind & Hex & ->).
  exists e. split; [exact Hfind |]. split; [exact Hex |].
  unfold add_task_call, write, DatabaseManager.add_task, insert_task.
  split; [| split].
  - intros ->. destruct s; reflexivity.
  - intros -> ->. reflexivity.
  - intros -> ->. simpl. eexists. eexists. split; reflexivity.
Qed.

(** X18 on two sessions: one has removed A after two tasks, so that one
    task is left and the next id, TASK_002, is the id of B's task; the
    other has clicked "Add Employee" twice for A. *)
Lemma add_task_button_outcomes_witness :
  (truthy "third" = true /\ 0 < 1 /\
   employees (on_disk (session collision_session empty_store)) <> [] /\
   employees (on_disk (session locked_session empty_store)) <> [] /\
   write_lock (session collision_session empty_store) = false /\
   has_task (next_task_id (on_disk (session collision_session empty_store)))
            (on_disk (session collision_session empty_store)) = true /\
   write_lock (session locked_session empty_store) = true) /\
  add_task_button 3 "third" 1 (session collision_session empty_store)
  = (Threw (Python IntegrityError),
     mkConnected (on_disk (session collision_session empty_store)) true) /\
  add_task_button 3 "third" 1 (session locked_session empty_store)
  = (Threw DatabaseIsLocked, session locked_session empty_store).
Proof.
  assert (H1 : truthy "third" = true) by reflexivity.
  assert (H2 : 0 < 1) by reflexivity.
  assert (H3 : employees (on_disk (session collision_session empty_store))
               <> []) by discriminate.
  assert (H4 : employees (on_disk (session locked_session empty_store))
               <> []) by discriminate.
  assert (H5 : write_lock (session collision_session empty_store) = false)
    by reflexivity.
  assert (H6 : has_task
                 (next_task_id
                    (on_disk (session collision_session empty_store)))
                 (on_disk (session collision_session empty_store)) = true)
    by reflexivity.
  assert (H7 : write_lock (session locked_session empty_store) = true)
    by reflexivity.
  split; [repeat split; auto |]. split.
  - destruct (add_task_button_outcomes collision_session 3 "third" 1 H1 H2 H3)
      as (e & _ & _ & _ & Hdup & _).
    exact (Hdup H5 H6).
  - destruct (add_task_button_outcomes locked_session 3 "third" 1 H1 H2 H4)
      as (e & _ & _ & Hlocked & _).
    exact (Hlocked H7).
Defined.

Lemma label_not_taken (db : Database) :
  map t_task_id (tasks db)
  = map task_label (seq 1 (List.length (tasks db))) ->
  has_task (next_task_id db) db = false.
Proof.
  intros HL. apply not_true_iff_false. rewrite has_task_iff, HL.
  rewrite next_task_id_label, in_map_iff. intros (x & E & Hx).
  apply task_label_injective in E. apply in_seq in Hx. lia.
Qed.

Lemma after_event_keeps_labels (ev : event) (s : Connected Database) :
  no_blank_employee (on_disk s) -> is_removal ev = false ->
  map t_task_id (tasks (on_disk s))
  = map task_label (seq 1 (List.length (tasks (on_disk s)))) ->
  map t_task_id (tasks (on_disk (after_event ev s)))
  = map task_label
      (seq 1 (List.length (tasks (on_disk (after_event ev s))))).
Proof.
  intros Hb Hc HL.
  destruct (after_event_cases ev s Hb) as [-> | (o & -> & _ & Ho)]; auto.
  destruct o as [now i | now i d dur a | i |]; simpl.
  - unfold DatabaseManager.add_employee, insert_employee.
    destruct (has_employee i (on_disk s)); simpl; auto.
  - subst i. unfold DatabaseManager.add_task, insert_task.
    rewrite (label_not_taken (on_disk s) HL). simpl.
    rewrite map_app, length_app, seq_app, map_app, <- HL. simpl.
    rewrite next_task_id_label. do 3 f_equal. lia.
  - congruence.
  - contradiction.
Qed.

Lemma session_keeps_labels (es : list event) :
  forall s,
    forallb (fun ev => negb (is_removal ev)) es = true ->
    no_blank_employee (on_disk s) /\ keys_unique (on_disk s) /\
    references_exist (on_disk s) ->
    map t_task_id (tasks (on_disk s))
    = map task_label (seq 1 (List.length (tasks (on_disk s)))) ->
    map t_task_id (tasks (on_disk (session es s)))
    = map task_label (seq 1 (List.length (tasks (on_disk (session es s))))).
Proof.
  induction es as [| ev es IH]; intros s Hes Hinv HL; simpl in *; auto.
  apply andb_true_iff in Hes. destruct Hes as [Hev Hes].
  apply negb_true_iff in Hev. apply IH; auto.
  - now apply after_event_keeps_invariants.
  - apply after_event_keeps_labels; tauto.
Qed.

(** X19. In a session without "Remove Employee", the tasks are numbered
    TASK_001, TASK_002, ... in the order they were made, so the id "Add
    Task" makes is always new: the handler never raises [IntegrityError],
    and it returns, whatever its inputs, whenever no connection left open by
    a refused "Add Employee" holds the lock. *)
Theorem add_task_button_without_removals (es : list event) (now : nat)
    (desc : string) (d : Q) :
  forallb (fun ev => negb (is_removal ev)) es = true ->
  map t_task_id (tasks (on_disk (session es empty_store)))
  = map task_label
      (seq 1 (List.length (tasks (on_disk (session es empty_store))))) /\
  has_task (next_task_id (on_disk (session es empty_store)))
           (on_disk (session es empty_store)) = false /\
  (forall s', add_task_button now desc d (session es empty_store)
              <> (Threw (Python IntegrityError), s')) /\
  (write_lock (session es empty_store) = false ->
   exists r s',
     add_task_button now desc d (session es empty_store) = (Replied r, s')).
Proof.
  intros Hes.
  assert (HL : map t_task_id (tasks (on_disk (session es empty_store)))
               = map task_label
                   (seq 1 (List.length
                             (tasks (on_disk (session es empty_store))))))
    by (apply session_keeps_labels; auto using empty_store_invariants).
  split; [exact HL |].
  destruct (session_keeps_invariants es empty_store empty_store_invariants)
    as (Hb & _).
  set (s := session es empty_store) in *.
  pose proof (label_not_taken (on_disk s) HL) as Hnew.
  split; [exact Hnew |].
  assert (Cases :
             (exists r, add_task_button now desc d s = (Replied r, s)) \/
             exists e,
               add_task_button now desc d s
               = match add_task_call now (next_task_id (on_disk s)) desc d e s
                 with
                 | (Replied _, s') =>
                     (Replied
                        (st_success
                           (String.append "Task "
                              (String.append (next_task_id (on_disk s))
                                 (String.append " assigned to "
                                    (String.append e "!"))))),
                      s')
                 | (Threw x, s') => (Threw x, s')
                 end).
  { destruct (truthy desc) eqn:Td;
      [| left; eexists; unfold add_task_button; rewrite Td; reflexivity].
    destruct (DatabaseManager.Qltb 0 d) eqn:Hd;
      [| left; eexists; unfold add_task_button; rewrite Td, Hd; reflexivity].
    destruct (employees (on_disk s)) as [| r rs] eqn:Es.
    { left. eexists. unfold add_task_button. rewrite Td, Hd. simpl.
      unfold DatabaseManager.get_all_employees. rewrite Es. reflexivity. }
    assert (Hne : employees (on_disk s) <> []) by (rewrite Es; discriminate).
    destruct (add_task_button_steps now desc d s Hb Td
                (proj1 (positive_duration d) Hd) Hne) as (e & _ & _ & E).
    right. eauto. }
  split.
  - intros s' E. destruct Cases as [(r & E') | (e & E')];
      rewrite E' in E; [discriminate |].
    unfold add_task_call, write, DatabaseManager.add_task, insert_task in E.
    rewrite Hnew in E. destruct (write_lock s); simpl in E; discriminate.
  - intros Hfree. destruct Cases as [(r & ->) | (e & ->)]; [eauto |].
    unfold add_task_call, write, DatabaseManager.add_task, insert_task.
    rewrite Hfree, Hnew. simpl. eauto.
Qed.

(** X19 on a session of two employees and three tasks, with a refused
    "Add Employee" and a run of the collector in it. *)
Lemma add_task_button_without_removals_witness :
  forallb (fun ev => negb (is_removal ev)) no_removal_session = true /\
  map t_task_id (tasks (on_disk (session no_removal_session empty_store)))
  = ["TASK_001"; "TASK_002"; "TASK_003"]%string /\
  write_lock (session no_removal_session empty_store) = false /\
  exists r s',
    add_task_button 9 "fourth" 2 (session no_removal_session empty_store)
    = (Replied r, s').
Proof.
  assert (H : forallb (fun ev => negb (is_removal ev)) no_removal_session
              = true) by reflexivity.
  assert (Hfree : write_lock (session no_removal_session empty_store) = false)
    by reflexivity.
  split; [exact H |]. split; [reflexivity |]. split; [exact Hfree |].
  exact (proj2 (proj2 (proj2 (add_task_button_without_removals
                                no_removal_session 9 "fourth" 2 H))) Hfree).
Defined.
